(** * Bing search tool: circuit breaker, request fan-out and result shaping

    A shallow embedding of [app/tools/bing_search.py].

    The Python module has two classes.  [BingSearchAPI] issues one HTTP GET
    per query and keeps two class variables, shared by every instance of the
    process, that record whether the upstream API has been found unusable.
    [BingSearch] is the tool facade: it validates the parameters, starts one
    coroutine per query, joins them with [asyncio.gather] and files the
    results in a [BingSearchToolResult].

    Coroutines are cooperative: a coroutine runs without interruption up to
    the point where it really waits for the network.  A function that awaits
    the upstream is therefore a value of a coroutine type: it has returned,
    it has raised, or it has issued its GET and holds the rest of its body
    as a function of the reply.  The rest of the body reads the status,
    awaits the text or the decoded body, and only then touches the class
    variables and returns, with no await in between; it is one step.  The
    class variables are threaded as an explicit state of type
    [BingSearchAPI.cls]. *)

From Stdlib Require Import ZArith Permutation Ascii String.
From stdpp Require Import gmap strings list fin_maps pretty.

Local Open Scope string_scope.

(** ** Python values and idioms *)

(** The values that occur in the query-parameter dictionary. *)
Inductive pyval :=
| PyNone
| PyInt (n : Z)
| PyStr (s : string).

#[global] Instance pyval_eq_dec : EqDecision pyval.
Proof. solve_decision. Defined.

(** A value found at a leaf of the decoded JSON document: a string, or an
    object of another type.  The code does three things with such a value:
    it stores it, it hands it to [re.search], which raises on anything but
    a string, and it formats it into an f-string; of an object that is not
    a string the text that [str()] gives is therefore all that is kept. *)
Inductive pyobj :=
| Str (s : string)
| Other (shown : string).

(** [str(v)], as the f-string applies it. *)
Definition py_str (v : pyobj) : string :=
  match v with
  | Str s => s
  | Other shown => shown
  end.

(** The only exception the module raises by itself. *)
Inductive exn :=
| ValueError (msg : string).

(** [a or b] on integers where the left operand may also be [None]. *)
Definition py_or (a : option Z) (b : Z) : Z :=
  match a with
  | Some n => if decide (n = 0%Z) then b else n
  | None => b
  end.

(** [l[:n]]: a negative bound counts from the end of the list. *)
Definition slice_to {A : Type} (n : Z) (l : list A) : list A :=
  if decide (0 ≤ n)%Z then take (Z.to_nat n) l
  else take (length l - Z.to_nat (- n)) l.

(** [sep.join(l)] *)
Fixpoint join (sep : string) (l : list string) : string :=
  match l with
  | [] => ""
  | [x] => x
  | x :: rest => x +:+ sep +:+ join sep rest
  end.

(** Modelled from the spec: the configuration manager
    [agentlang.config.config] is not part of the sources at hand.  The
    subscription key and the endpoint are resolved by key name, the default
    being used for a key that is not set. *)
Definition config_get (cfg : gmap string string) (key dflt : string) : string :=
  default dflt (cfg !! key).

(** ** The regular expression [https?://([^/]+)]

    Strings are byte strings; [/] is a single byte that never occurs inside
    a multi-byte UTF-8 sequence, hence matching bytes and matching code
    points agree for this pattern. *)
Module Re.

Definition slash : ascii := "/"%char.

(** Removes a literal prefix. *)
Fixpoint strip (p s : string) : option string :=
  match p with
  | EmptyString => Some s
  | String a p' =>
      match s with
      | String b s' => if decide (a = b) then strip p' s' else None
      | EmptyString => None
      end
  end.

(** The longest prefix without a slash: what a greedy [[^/]*] consumes. *)
Fixpoint host_span (s : string) : string :=
  match s with
  | EmptyString => EmptyString
  | String a s' => if decide (a = slash) then EmptyString else String a (host_span s')
  end.

(** [://([^/]+)] at the head of [s]; the group needs one byte at least. *)
Definition authority (s : string) : option string :=
  match strip "://" s with
  | Some r => match host_span r with
              | EmptyString => None
              | h => Some h
              end
  | None => None
  end.

(** The whole pattern anchored at the head of [s].  The optional [s] is
    greedy: it is taken first and given back when the rest fails. *)
Definition match_here (s : string) : option string :=
  match strip "http" s with
  | Some r =>
      match r with
      | String "s"%char r' =>
          match authority r' with
          | Some h => Some h
          | None => authority r
          end
      | _ => authority r
      end
  | None => None
  end.

(** [re.search]: the leftmost position at which the pattern matches;
    the result is group 1. *)
Fixpoint search (s : string) : option string :=
  match match_here s with
  | Some h => Some h
  | None =>
      match s with
      | EmptyString => None
      | String _ s' => search s'
      end
  end.

End Re.

(** ** What the upstream sends back *)

(** One element of [data["webPages"]["value"]].  Each key may be absent
    from the JSON object. *)
Record item := {
  item_name : option pyobj;
  item_url : option pyobj;
  item_snippet : option pyobj
}.

(** [data["webPages"]], with its optional key ["value"]. *)
Record web_pages := {
  value : option (list item)
}.

(** The decoded body of a 200 reply, with its optional key ["webPages"]. *)
Record data := {
  webPages : option web_pages
}.

(** An HTTP reply.  [text] and [json] are the outcomes of
    [await response.text()] and [await response.json()].  [None] stands for
    a call that raises; for [json] it also stands for a document on which
    the statements that read it raise (a number where an object is
    expected, an element of the list that is not an object). *)
Record response := {
  status : Z;
  text : option string;
  json : option data
}.

(** What [session.get] comes back with: an exception of the transport
    (connection refused, timeout) or a reply. *)
Inductive upstream :=
| TransportError
| Reply (r : response).

(** The GET as handed to the transport. *)
Record request := {
  req_url : string;
  req_headers : gmap string string;
  req_params : gmap string pyval
}.

(** A search result as [_search] builds it. *)
Record raw_hit := {
  title : pyobj;
  link : pyobj;
  snippet : pyobj
}.

(** A search result after [_perform_search] added the two derived keys. *)
Record hit := {
  hit_title : pyobj;
  hit_link : pyobj;
  hit_snippet : pyobj;
  domain : pyobj;
  icon_url : string
}.

(** ** class BingSearchAPI *)
Module BingSearchAPI.

(** The class variables: the state of the breaker. *)
Record cls := {
  _api_unavailable : bool;
  _api_unavailable_reason : string
}.

(** The values the class body assigns. *)
Definition initial : cls :=
  {| _api_unavailable := false; _api_unavailable_reason := "" |}.

(** An instance. *)
Record t := {
  k : Z;
  search_kwargs : gmap string pyval;
  subscription_key : string;
  search_url : string
}.

Definition __init__ (cfg : gmap string string) (k : Z)
    (search_kwargs : option (gmap string pyval)) : t :=
  {| k := k;
     search_kwargs := default ∅ search_kwargs;
     subscription_key := config_get cfg "bing.search_api_key" "";
     search_url :=
       config_get cfg "bing.search_endpoint" "https://api.bing.microsoft.com/v7.0"
       +:+ "/search" |}.

(** A call of [_search] as far as it gets without the network.  [resume]
    is the rest of the body: given the class variables as they are when
    the reply is in, and the reply, it yields the class variables it leaves
    and the list it returns. *)
Inductive coroutine :=
| Returned (hits : list raw_hit)
| Raised (e : exn)
| Awaiting (req : request) (resume : cls → upstream → cls * list raw_hit).

(** The dictionary built for one element of the result list. *)
Definition parse_item (it : item) : raw_hit :=
  {| title := default (Str "") (item_name it);
     link := default (Str "") (item_url it);
     snippet := default (Str "") (item_snippet it) |}.

(** The two assignments of the 401 branch. *)
Definition mark_unavailable (error_detail : string) : cls :=
  {| _api_unavailable := true;
     _api_unavailable_reason := "API密钥无效或API端点错误: " +:+ error_detail |}.

(** [_search].  In the dictionary literal the keys of [search_kwargs] come
    last and therefore win; the loop after it drops the keys bound to
    [None].  Everything from the GET on is inside the [try] block: whatever
    raises there ends in [return []]. *)
Definition _search (g : cls) (self : t) (query : string) (limit : option Z)
    : coroutine :=
  if _api_unavailable g then Returned []
  else if decide (subscription_key self = "") then
    Raised (ValueError "Bing Search API key is required")
  else
    let headers : gmap string string :=
      <["Ocp-Apim-Subscription-Key" := subscription_key self]>
        (<["Accept" := "application/json"]> ∅) in
    let params : gmap string pyval :=
      search_kwargs self
      ∪ <["count" := PyInt (py_or limit (k self))]> (<["q" := PyStr query]> ∅) in
    let params := filter (λ kv : string * pyval, kv.2 ≠ PyNone) params in
    Awaiting
      {| req_url := search_url self; req_headers := headers; req_params := params |}
      (λ g u,
         match u with
         | TransportError => (g, [])
         | Reply r =>
             if decide (status r ≠ 200%Z) then
               match text r with
               | None => (g, [])
               | Some error_detail =>
                   if decide (status r = 401%Z)
                   then (mark_unavailable error_detail, [])
                   else (g, [])
               end
             else
               match json r with
               | None => (g, [])
               | Some d =>
                   match webPages d with
                   | None => (g, [])
                   | Some wp =>
                       match value wp with
                       | None => (g, [])
                       | Some items =>
                           (g, slice_to (py_or limit (k self)) (map parse_item items))
                       end
                   end
               end
         end).

(** [results]: the limit is [k] unless it is [None]. *)
Definition results (g : cls) (self : t) (query : string) (k_arg : option Z)
    : coroutine :=
  let limit := match k_arg with Some n => n | None => k self end in
  _search g self query (Some limit).

(** A call of [run] as far as it gets without the network; as for
    [_search], with a text where [_search] has a list. *)
Inductive text_coroutine :=
| TextReturned (s : string)
| TextRaised (e : exn)
| TextAwaiting (req : request) (resume : cls → upstream → cls * string).

(** The end of line that closes each line of the summary. *)
Definition newline : string := String "010"%char EmptyString.

(** The loop of [run] over [enumerate(search_results, 1)], from the number
    [i] on: each result adds one line to [result_str]. *)
Fixpoint summary_lines (i : nat) (search_results : list raw_hit)
    (result_str : string) : string :=
  match search_results with
  | [] => result_str
  | result :: rest =>
      summary_lines (S i) rest
        (result_str +:+ pretty i +:+ ". " +:+ py_str (title result) +:+ ": "
         +:+ py_str (snippet result) +:+ newline)
  end.

(** What [run] makes of the list that [_search] returned. *)
Definition summary (search_results : list raw_hit) : string :=
  match search_results with
  | [] => "No results found"
  | _ => summary_lines 1 search_results ""
  end.

(** [run]: [_search] is called without a limit, and nothing is caught. *)
Definition run (g : cls) (self : t) (query : string) : text_coroutine :=
  match _search g self query None with
  | Returned search_results => TextReturned (summary search_results)
  | Raised e => TextRaised e
  | Awaiting req resume =>
      TextAwaiting req
        (λ g u, let '(g', search_results) := resume g u in
                (g', summary search_results))
  end.

End BingSearchAPI.

(** ** class BingSearchToolResult *)

(** What [content] holds: a plain sentence, or the dictionary
    [{"message": ..., "results": ...}] that [json.dumps] serialises. *)
Inductive content_t :=
| Text (s : string)
| Document (message : string) (results : list (string * list hit)).

(** Modelled from the spec: class [BingSearchToolResult]
    ([app/core/entity/tool/tool_result.py]) is not part of the sources at
    hand.  The batch result is an ordered sequence of query outcomes, one
    per submitted query, duplicates allowed; the machine payload lists each
    query with its hits in batch order, and the detail payload is the
    flattened, order-preserving sequence of (query, hit) pairs. *)
Record BingSearchToolResult := {
  content : content_t;
  error : option string;
  output_results : list (string * list hit);
  search_results : list (string * hit)
}.

(** Modelled from the spec: [BingSearchToolResult(content=c)], a result
    that holds the content and no outcome yet. *)
Definition result_of_content (c : content_t) : BingSearchToolResult :=
  {| content := c; error := None; output_results := []; search_results := [] |}.

(** Modelled from the spec: [BingSearchToolResult(error=e)], the response
    on failure, is an error message and nothing else. *)
Definition result_of_error (e : string) : BingSearchToolResult :=
  {| content := Text ""; error := Some e; output_results := []; search_results := [] |}.

(** Modelled from the spec: [set_output_results] adds the outcome of one
    query to the machine payload, after those already there. *)
Definition set_output_results (q : string) (hits : list hit)
    (r : BingSearchToolResult) : BingSearchToolResult :=
  {| content := content r; error := error r;
     output_results := output_results r ++ [(q, hits)];
     search_results := search_results r |}.

(** Modelled from the spec: [set_search_results] adds the hits of one
    query, each paired with the query, to the detail payload. *)
Definition set_search_results (q : string) (hits : list hit)
    (r : BingSearchToolResult) : BingSearchToolResult :=
  {| content := content r; error := error r;
     output_results := output_results r;
     search_results := search_results r ++ map (pair q) hits |}.

(** Modelled from the spec: [output_results_to_dict] is the machine
    payload, each query with its hits, in batch order. *)
Definition output_results_to_dict (r : BingSearchToolResult)
    : list (string * list hit) :=
  output_results r.

(** The assignment [result.content = c]. *)
Definition set_content (c : content_t) (r : BingSearchToolResult)
    : BingSearchToolResult :=
  {| content := c; error := error r;
     output_results := output_results r;
     search_results := search_results r |}.

(** What a call of the tool leaves behind: the class variables, the GETs
    it issued, and the value it returned. *)
Record outcome := {
  final : BingSearchAPI.cls;
  sent : list request;
  returned : BingSearchToolResult
}.

(** ** class BingSearch *)
Module BingSearch.

Definition MAX_RESULTS : Z := 10.

Record BingSearchParams := {
  query : list string;
  num_results : Z;
  language : string;
  region : string;
  safe_search : bool;
  time_period : option string
}.

(** The defaults of the fields other than [query]. *)
Definition with_defaults (query : list string) : BingSearchParams :=
  {| query := query; num_results := 10; language := "zh-CN"; region := "CN";
     safe_search := true; time_period := None |}.

(** [_extract_domain]; on an object that is not a string [re.search]
    raises, and the handler returns the argument. *)
Definition _extract_domain (url : pyobj) : pyobj :=
  match url with
  | Str s =>
      match Re.search s with
      | Some group1 => Str group1
      | None => url
      end
  | Other _ => url
  end.

Definition _get_favicon_url (domain : pyobj) : string :=
  "https://" +:+ py_str domain +:+ "/favicon.ico".

(** The dictionary [search_params] that [_perform_search] fills in first. *)
Definition build_search_params (num_results : Z) (language region : string)
    (safe_search : bool) (time_period : option string) : gmap string pyval :=
  let search_params : gmap string pyval :=
    <["mkt" := PyStr (language +:+ "-" +:+ region)]>
      (<["setLang" := PyStr language]> (<["count" := PyInt num_results]> ∅)) in
  let search_params :=
    if safe_search then <["safeSearch" := PyStr "Strict"]> search_params
    else <["safeSearch" := PyStr "Off"]> search_params in
  match time_period with
  | None => search_params
  | Some tp =>
      if decide (tp = "") then search_params
      else if decide (tp = "day") then <["freshness" := PyStr "Day"]> search_params
      else if decide (tp = "week") then <["freshness" := PyStr "Week"]> search_params
      else if decide (tp = "month") then <["freshness" := PyStr "Month"]> search_params
      else search_params
  end.

(** The body of the loop that adds the source site and its favicon. *)
Definition enrich (it : raw_hit) : hit :=
  let d := _extract_domain (link it) in
  {| hit_title := title it; hit_link := link it; hit_snippet := snippet it;
     domain := d; icon_url := _get_favicon_url d |}.

(** A call of [_perform_search] as far as it gets without the network: it
    has returned, or it waits for the reply to the GET it issued.  It never
    ends with an exception, for the handler of the function turns any into
    the empty list. *)
Inductive task :=
| Done (hits : list hit)
| Waiting (req : request)
    (resume : BingSearchAPI.cls → upstream → BingSearchAPI.cls * list hit).

(** [_perform_search].  [search_params] is assigned and not read again:
    the client is given the two keys written out in the call of the
    constructor. *)
Definition _perform_search (g : BingSearchAPI.cls) (cfg : gmap string string)
    (query : string) (num_results : Z) (language region : string)
    (safe_search : bool) (time_period : option string) : task :=
  let search_params :=
    build_search_params num_results language region safe_search time_period in
  let search :=
    BingSearchAPI.__init__ cfg num_results
      (Some (<["mkt" := PyStr (language +:+ "-" +:+ region)]>
               (<["setLang" := PyStr language]> ∅))) in
  match BingSearchAPI.results g search query (Some num_results) with
  | BingSearchAPI.Returned search_results => Done (map enrich search_results)
  | BingSearchAPI.Raised e => Done []
  | BingSearchAPI.Awaiting req resume =>
      Waiting req
        (λ g u, let '(g', search_results) := resume g u in
                (g', map enrich search_results))
  end.

(** The event loop hands the reply for query number [i] to its coroutine,
    which then runs to its end; the result is kept at position [i]. *)
Definition deliver (net : nat → upstream) (s : BingSearchAPI.cls * list task)
    (i : nat) : BingSearchAPI.cls * list task :=
  match s.2 !! i with
  | Some (Waiting _ resume) =>
      let '(g', hits) := resume s.1 (net i) in
      (g', <[i := Done hits]> s.2)
  | _ => s
  end.

(** Replies arrive in the order [order]. *)
Definition event_loop (net : nat → upstream) (order : list nat)
    (s : BingSearchAPI.cls * list task) : BingSearchAPI.cls * list task :=
  foldl (deliver net) s order.

Definition task_result (t : task) : option (list hit) :=
  match t with
  | Done hits => Some hits
  | Waiting _ _ => None
  end.

(** [asyncio.gather]: the results of all coroutines, by position; there is
    no value while one of them still waits. *)
Definition gather (tasks : list task) : option (list (list hit)) :=
  mapM task_result tasks.

(** The GETs that were issued when the coroutines were started. *)
Definition issued (tasks : list task) : list request :=
  omap (λ t, match t with Waiting req _ => Some req | Done _ => None end) tasks.

Definition _handle_queries_results (queries : list string)
    (all_results : list (list hit)) : BingSearchToolResult :=
  foldl (λ result (qr : string * list hit),
           set_search_results qr.1 qr.2 (set_output_results qr.1 qr.2 result))
        (result_of_content (Text "")) (zip queries all_results).

(** [execute].  [net i] is what the upstream does with the GET of query
    number [i], and [order] is the order in which the replies come in.
    [gather] wraps the coroutines in tasks and the caller waits; the event
    loop first runs every task up to its GET, in the order of the queries,
    and only then looks at the network.  There is no value when [order]
    leaves a coroutine without its reply.  Nothing below raises, so the
    handler that closes the function body is never entered. *)
Definition execute (g : BingSearchAPI.cls) (cfg : gmap string string)
    (params : BingSearchParams) (net : nat → upstream) (order : list nat)
    : option outcome :=
  if BingSearchAPI._api_unavailable g then
    Some {| final := g; sent := [];
            returned := result_of_error
              ("搜索服务不可用: " +:+ BingSearchAPI._api_unavailable_reason g) |}
  else if decide (query params = []) then
    Some {| final := g; sent := [];
            returned := result_of_content (Text "搜索查询不能为空") |}
  else
    let num_results :=
      if decide (MAX_RESULTS < num_results params)%Z then MAX_RESULTS
      else num_results params in
    let tasks :=
      map (λ q, _perform_search g cfg q num_results (language params)
                  (region params) (safe_search params) (time_period params))
          (query params) in
    let '(g', tasks') := event_loop net order (g, tasks) in
    all_results ← gather tasks';
    let result := _handle_queries_results (query params) all_results in
    let message :=
      if decide (1 < length (query params)) then
        "我已从搜索引擎中分别搜索了: " +:+ join ", " (query params)
      else "我已从搜索引擎中搜索了: " +:+ default "" (head (query params)) in
    Some {| final := g'; sent := issued tasks;
            returned :=
              set_content (Document message (output_results_to_dict result)) result |}.

(** The dictionary [arguments] of a tool call, as far as
    [get_after_tool_call_friendly_action_and_remark] reads it: the list
    bound to ["query"], when the key is there, and the other keys, whose
    values are not looked at. *)
Record tool_arguments := {
  arg_query : option (list string);
  arg_other_keys : gset string
}.

(** The dictionary with the two keys ["action"] and ["remark"]. *)
Record friendly := {
  action : string;
  remark : string
}.

(** What subscripting an empty list raises. *)
Inductive index_error :=
| IndexError (msg : string).

(** [get_after_tool_call_friendly_action_and_remark]; of its parameters
    only [arguments] is read.  Nothing in it catches what [query[0]]
    raises. *)
Definition get_after_tool_call_friendly_action_and_remark
    (arguments : option tool_arguments) : index_error + friendly :=
  let no_arguments :=
    match arguments with
    | None => true
    | Some a => bool_decide (arg_query a = None ∧ arg_other_keys a = ∅)
    end in
  let no_query :=
    match arguments with
    | None => true
    | Some a => bool_decide (arg_query a = None)
    end in
  if no_arguments || no_query then
    inr {| action := "互联网搜索"; remark := "已完成搜索" |}
  else
    match arguments ≫= arg_query with
    | None => inr {| action := "互联网搜索"; remark := "已完成搜索" |}
    | Some queries =>
        if decide (1 < length queries) then
          inr {| action := "互联网搜索"; remark := "搜索: " +:+ join ", " queries |}
        else
          match queries with
          | q0 :: _ => inr {| action := "互联网搜索"; remark := "搜索: " +:+ q0 |}
          | [] => inl (IndexError "list index out of range")
          end
    end.

End BingSearch.

(** ** Vocabulary of the statements *)

(** The text of a reply that makes [_search] mark the API unavailable: the
    status is 401 and the text of the reply could be read. *)
Definition trip_of (u : upstream) : option string :=
  match u with
  | TransportError => None
  | Reply r => if decide (status r = 401%Z) then text r else None
  end.

(** The class variables after [_search] dealt with the reply [u]. *)
Definition after_reply (g : BingSearchAPI.cls) (u : upstream) : BingSearchAPI.cls :=
  from_option BingSearchAPI.mark_unavailable g (trip_of u).

(** A waiting coroutine whose result does not depend on the class
    variables it finds, and which leaves them as [_search] does. *)
Definition regular (t : BingSearch.task) : Prop :=
  match t with
  | BingSearch.Done _ => True
  | BingSearch.Waiting _ resume =>
      ∀ g u, resume g u = (after_reply g u, (resume BingSearchAPI.initial u).2)
  end.

(** A coroutine once its reply has been dealt with. *)
Definition settle (net : nat → upstream) (i : nat) (t : BingSearch.task)
    : BingSearch.task :=
  match t with
  | BingSearch.Done hits => BingSearch.Done hits
  | BingSearch.Waiting _ resume =>
      BingSearch.Done (resume BingSearchAPI.initial (net i)).2
  end.

(** The count the facade passes on. *)
Definition clamp (n : Z) : Z :=
  if decide (BingSearch.MAX_RESULTS < n)%Z then BingSearch.MAX_RESULTS else n.

(** One query on its own: the coroutine of [_perform_search] for [q], run
    from its start to its end against the reply [u]. *)
Definition unit_result (g : BingSearchAPI.cls) (cfg : gmap string string)
    (params : BingSearch.BingSearchParams) (u : upstream) (q : string) : list hit :=
  match BingSearch._perform_search g cfg q (clamp (BingSearch.num_results params))
          (BingSearch.language params) (BingSearch.region params)
          (BingSearch.safe_search params) (BingSearch.time_period params) with
  | BingSearch.Done hits => hits
  | BingSearch.Waiting _ resume => (resume g u).2
  end.

(** The coroutines of a call of [execute], as started. *)
Definition started_tasks (g : BingSearchAPI.cls) (cfg : gmap string string)
    (params : BingSearch.BingSearchParams) : list BingSearch.task :=
  map (λ q, BingSearch._perform_search g cfg q
              (clamp (BingSearch.num_results params))
              (BingSearch.language params) (BingSearch.region params)
              (BingSearch.safe_search params) (BingSearch.time_period params))
      (BingSearch.query params).

(** The value [execute] returns once [gather] has come back with
    [all_results]. *)
Definition batch_return (queries : list string) (all_results : list (list hit))
    : BingSearchToolResult :=
  let result := BingSearch._handle_queries_results queries all_results in
  let message :=
    if decide (1 < length queries) then
      "我已从搜索引擎中分别搜索了: " +:+ join ", " queries
    else "我已从搜索引擎中搜索了: " +:+ default "" (head queries) in
  set_content (Document message (output_results_to_dict result)) result.

(** The answer of a call that finds the breaker open. *)
Definition unavailable_return (g : BingSearchAPI.cls) : BingSearchToolResult :=
  result_of_error ("搜索服务不可用: " +:+ BingSearchAPI._api_unavailable_reason g).

(** A failure of one query that is not a 401: the transport raises, the
    status is neither 200 nor 401, or the body of a 200 cannot be decoded. *)
Inductive confined_failure : upstream → Prop :=
| failure_transport : confined_failure TransportError
| failure_status r :
    status r ≠ 200%Z → status r ≠ 401%Z → confined_failure (Reply r)
| failure_body r :
    status r = 200%Z → json r = None → confined_failure (Reply r).

(** The four query parameters of the GET. *)
Definition four_params (q : string) (count : Z) (language region : string)
    : gmap string pyval :=
  <["q" := PyStr q]>
    (<["count" := PyInt count]>
       (<["mkt" := PyStr (language +:+ "-" +:+ region)]>
          (<["setLang" := PyStr language]> ∅))).

(** The pattern matches inside [url]: some position is followed by the
    scheme, [://] and a first byte of a host. *)
Definition has_match (url : string) : Prop :=
  ∃ (before scheme host rest : string),
    url = before +:+ scheme +:+ "://" +:+ host +:+ rest
    ∧ (scheme = "http" ∨ scheme = "https")
    ∧ host ≠ ""
    ∧ Re.host_span host = host.

(** One call of the tool: its configuration and parameters, what the
    upstream does, and the order in which the replies come in. *)
Record call := {
  call_cfg : gmap string string;
  call_params : BingSearch.BingSearchParams;
  call_net : nat → upstream;
  call_order : list nat
}.

(** Calls of the tool made one after the other, each starting with the
    class variables the one before left. *)
Fixpoint run_calls (g : BingSearchAPI.cls) (calls : list call)
    : option (BingSearchAPI.cls * list outcome) :=
  match calls with
  | [] => Some (g, [])
  | c :: rest =>
      o ← BingSearch.execute g (call_cfg c) (call_params c) (call_net c) (call_order c);
      '(g', outs) ← run_calls (final o) rest;
      Some (g', o :: outs)
  end.

(** The GET of one query of a call of the tool. *)
Definition request_of (cfg : gmap string string)
    (params : BingSearch.BingSearchParams) (q : string) : request :=
  {| req_url :=
       config_get cfg "bing.search_endpoint" "https://api.bing.microsoft.com/v7.0"
       +:+ "/search";
     req_headers :=
       <["Ocp-Apim-Subscription-Key" := config_get cfg "bing.search_api_key" ""]>
         (<["Accept" := "application/json"]> ∅);
     req_params :=
       four_params q (clamp (BingSearch.num_results params))
         (BingSearch.language params) (BingSearch.region params) |}.

(** ** Sample data *)

(** A configuration with a subscription key and the default endpoint. *)
Definition sample_cfg : gmap string string :=
  <["bing.search_api_key" := "sample-key"]> ∅.

Definition sample_item : item :=
  {| item_name := Some (Str "Example");
     item_url := Some (Str "https://example.com/a/b");
     item_snippet := None |}.

(** A 200 reply that lists [items]. *)
Definition reply_ok (items : list item) : upstream :=
  Reply {| status := 200; text := None;
           json := Some {| webPages := Some {| value := Some items |} |} |}.

(** A reply with another status and the text [body]. *)
Definition reply_status (code : Z) (body : string) : upstream :=
  Reply {| status := code; text := Some body; json := None |}.

(** An upstream that rejects the credential for query number 1 and lists
    a page for every other query. *)
Definition sample_net_denied (i : nat) : upstream :=
  if decide (i = 1) then reply_status 401 "denied" else reply_ok [sample_item].

(** ** The client: one reply *)

(** What the rest of the body of [_search] does with a reply. *)
Lemma search_resume g self q limit req resume :
  BingSearchAPI._search g self q limit = BingSearchAPI.Awaiting req resume →
  ∀ g' u,
    (resume g' u).1 = after_reply g' u
    ∧ (resume g' u).2 = (resume BingSearchAPI.initial u).2
    ∧ (confined_failure u → (resume g' u).2 = [])
    ∧ ((0 ≤ py_or limit (BingSearchAPI.k self))%Z →
       (length (resume g' u).2 ≤ Z.to_nat (py_or limit (BingSearchAPI.k self)))%nat).
Proof.
  unfold BingSearchAPI._search.
  destruct (BingSearchAPI._api_unavailable g); [done|].
  case_decide; [done|]. intros [= _ <-] g' u.
  unfold after_reply, trip_of.
  destruct u as [|r]; cbn [fst snd].
  { repeat split; cbn; intros; lia. }
  destruct (decide (status r ≠ 200%Z)) as [Hne|Heq].
  - destruct (text r) as [d|]; [destruct (decide (status r = 401%Z))|];
      cbn [fst snd from_option]; repeat split;
      repeat case_decide; try done; cbn; intros; lia.
  - assert (status r = 200%Z) as H200
      by (destruct (decide (status r = 200%Z)); tauto).
    rewrite (decide_False (P := status r = 401%Z)) by lia.
    destruct (json r) as [d|] eqn:Hjson; [|repeat split; cbn; intros; lia].
    destruct (webPages d) as [wp|]; [|repeat split; cbn; intros; lia].
    destruct (value wp) as [items|]; [|repeat split; cbn; intros; lia].
    cbn [fst snd from_option]. repeat split.
    + intros Hfail. inversion Hfail; simplify_eq.
    + intros Hn. unfold slice_to. rewrite decide_True by done.
      rewrite length_take. lia.
Qed.

Lemma search_request g self q limit req resume :
  BingSearchAPI._search g self q limit = BingSearchAPI.Awaiting req resume →
  BingSearchAPI._api_unavailable g = false
  ∧ BingSearchAPI.subscription_key self ≠ ""
  ∧ req = {| req_url := BingSearchAPI.search_url self;
             req_headers :=
               <["Ocp-Apim-Subscription-Key" := BingSearchAPI.subscription_key self]>
                 (<["Accept" := "application/json"]> ∅);
             req_params :=
               filter (λ kv : string * pyval, kv.2 ≠ PyNone)
                 (BingSearchAPI.search_kwargs self
                  ∪ <["count" := PyInt (py_or limit (BingSearchAPI.k self))]>
                      (<["q" := PyStr q]> ∅)) |}.
Proof.
  unfold BingSearchAPI._search.
  destruct (BingSearchAPI._api_unavailable g); [done|].
  case_decide; [done|]. by intros [= <- _].
Qed.

Lemma after_reply_unavailable g u :
  BingSearchAPI._api_unavailable g = true →
  BingSearchAPI._api_unavailable (after_reply g u) = true.
Proof. unfold after_reply. by destruct (trip_of u). Qed.

(** ** Starting a coroutine *)

Lemma params_four q n language region :
  filter (λ kv : string * pyval, kv.2 ≠ PyNone)
    ((<["mkt" := PyStr (language +:+ "-" +:+ region)]>
        (<["setLang" := PyStr language]> ∅) : gmap string pyval)
     ∪ <["count" := PyInt n]> (<["q" := PyStr q]> ∅))
  = four_params q n language region.
Proof.
  unfold four_params. rewrite map_filter_id.
  - apply map_eq; intros key.
    rewrite lookup_union, !lookup_insert, !lookup_empty.
    repeat case_decide; simplify_eq; done.
  - intros key x. rewrite lookup_union, !lookup_insert, !lookup_empty.
    repeat case_decide; simplify_eq; cbn; intros ?; simplify_eq; done.
Qed.

Lemma py_or_same n : py_or (Some n) n = n.
Proof. unfold py_or. by case_decide. Qed.

(** A coroutine of [_perform_search] that waits: the breaker was closed
    and the key set when it started, its GET carries the four parameters,
    and the rest of its body is regular, yields nothing on a failure and
    no more hits than it was asked for. *)
Lemma perform_search_waiting g cfg q n language region safe_search time_period
    req resume :
  BingSearch._perform_search g cfg q n language region safe_search time_period
  = BingSearch.Waiting req resume →
  BingSearchAPI._api_unavailable g = false
  ∧ config_get cfg "bing.search_api_key" "" ≠ ""
  ∧ req = {| req_url :=
               config_get cfg "bing.search_endpoint"
                 "https://api.bing.microsoft.com/v7.0" +:+ "/search";
             req_headers :=
               <["Ocp-Apim-Subscription-Key" := config_get cfg "bing.search_api_key" ""]>
                 (<["Accept" := "application/json"]> ∅);
             req_params := four_params q n language region |}
  ∧ regular (BingSearch.Waiting req resume)
  ∧ (∀ g' u, confined_failure u → (resume g' u).2 = [])
  ∧ ((0 ≤ n)%Z → ∀ g' u, (length (resume g' u).2 ≤ Z.to_nat n)%nat).
Proof.
  unfold BingSearch._perform_search, BingSearchAPI.results.
  destruct (BingSearchAPI._search _ _ _ _) as [hits|e|req0 resume0] eqn:Hs; [done..|].
  intros [= <- <-].
  destruct (search_request _ _ _ _ _ _ Hs) as (Hg & Hkey & ->).
  pose proof (search_resume _ _ _ _ _ _ Hs) as Hres.
  cbn [BingSearchAPI.k BingSearchAPI.__init__] in Hres. rewrite py_or_same in Hres.
  cbn [BingSearchAPI.subscription_key BingSearchAPI.search_url BingSearchAPI.k
       BingSearchAPI.search_kwargs BingSearchAPI.__init__ default from_option] in *.
  unfold id. rewrite py_or_same, params_four.
  split; [done|]. split; [done|]. split; [done|]. split; [|split].
  - intros g' u. destruct (Hres g' u) as (H1 & H2 & _).
    destruct (resume0 g' u) as [g1 l1], (resume0 BingSearchAPI.initial u) as [g2 l2].
    cbn in *. by subst.
  - intros g' u Hu. destruct (Hres g' u) as (_ & _ & H3 & _).
    destruct (resume0 g' u) as [g1 l1]. cbn in *. by rewrite H3.
  - intros Hn g' u. destruct (Hres g' u) as (_ & _ & _ & H4).
    destruct (resume0 g' u) as [g1 l1]. cbn in *. rewrite length_map. auto.
Qed.

Lemma perform_search_done g cfg q n language region safe_search time_period hits :
  BingSearch._perform_search g cfg q n language region safe_search time_period
  = BingSearch.Done hits →
  hits = [].
Proof.
  unfold BingSearch._perform_search, BingSearchAPI.results, BingSearchAPI._search.
  destruct (BingSearchAPI._api_unavailable g); [by intros [= <-]|].
  case_decide; [by intros [= <-]|done].
Qed.

Lemma perform_search_closed g cfg q n language region safe_search time_period :
  BingSearchAPI._api_unavailable g = false →
  config_get cfg "bing.search_api_key" "" ≠ "" →
  ∃ req resume,
    BingSearch._perform_search g cfg q n language region safe_search time_period
    = BingSearch.Waiting req resume.
Proof.
  intros Hg Hkey.
  unfold BingSearch._perform_search, BingSearchAPI.results, BingSearchAPI._search.
  rewrite Hg. cbn [BingSearchAPI.subscription_key BingSearchAPI.__init__].
  rewrite decide_False by done. by eexists _, _.
Qed.

Lemma perform_search_no_key g cfg q n language region safe_search time_period :
  BingSearchAPI._api_unavailable g = false →
  config_get cfg "bing.search_api_key" "" = "" →
  BingSearch._perform_search g cfg q n language region safe_search time_period
  = BingSearch.Done [].
Proof.
  intros Hg Hkey.
  unfold BingSearch._perform_search, BingSearchAPI.results, BingSearchAPI._search.
  rewrite Hg. cbn [BingSearchAPI.subscription_key BingSearchAPI.__init__].
  by rewrite decide_True by done.
Qed.

Lemma perform_search_regular g cfg q n language region safe_search time_period :
  regular
    (BingSearch._perform_search g cfg q n language region safe_search time_period).
Proof.
  destruct (BingSearch._perform_search _ _ _ _ _ _ _ _) as [hits|req resume] eqn:Hp;
    [done|].
  by apply perform_search_waiting in Hp as (_ & _ & _ & Hreg & _).
Qed.

(** ** The event loop *)

Lemma deliver_eq net g ts i :
  Forall regular ts →
  BingSearch.deliver net (g, ts) i
  = match ts !! i with
    | Some (BingSearch.Waiting req resume) =>
        (after_reply g (net i), <[i := settle net i (BingSearch.Waiting req resume)]> ts)
    | _ => (g, ts)
    end.
Proof.
  intros Hreg. unfold BingSearch.deliver; cbn [fst snd].
  destruct (ts !! i) as [[hits|req resume]|] eqn:Hi; [done| |done].
  rewrite Forall_lookup in Hreg. specialize (Hreg i _ Hi). cbn in Hreg.
  by rewrite Hreg.
Qed.

Lemma settle_settle net i t : settle net i (settle net i t) = settle net i t.
Proof. by destruct t. Qed.

Lemma deliver_regular net g ts i :
  Forall regular ts → Forall regular (BingSearch.deliver net (g, ts) i).2.
Proof.
  intros Hreg. rewrite deliver_eq by done.
  destruct (ts !! i) as [[hits|req resume]|]; [done| |done].
  cbn [snd]. apply Forall_insert; done.
Qed.

Lemma deliver_lookup net g ts i j :
  Forall regular ts →
  (BingSearch.deliver net (g, ts) i).2 !! j
  = (λ t, if decide (j = i) then settle net j t else t) <$> ts !! j.
Proof.
  intros Hreg. rewrite deliver_eq by done.
  destruct (ts !! i) as [[hits|req resume]|] eqn:Hi; cbn [snd].
  - case_decide as Hj; [subst; by rewrite Hi|by destruct (ts !! j)].
  - case_decide as Hj.
    + subst. rewrite Hi. rewrite list_lookup_insert_eq; [done|].
      by eapply lookup_lt_Some.
    + rewrite list_lookup_insert_ne by done. by destruct (ts !! j).
  - case_decide as Hj; [subst; by rewrite Hi|by destruct (ts !! j)].
Qed.

Lemma event_loop_lookup net order g ts j :
  Forall regular ts →
  (BingSearch.event_loop net order (g, ts)).2 !! j
  = (λ t, if decide (j ∈ order) then settle net j t else t) <$> ts !! j.
Proof.
  unfold BingSearch.event_loop.
  revert g ts. induction order as [|i order IH]; intros g ts Hreg; cbn [foldl].
  - cbn [snd]. by destruct (ts !! j) as [t|].
  - pose proof (deliver_regular net g ts i Hreg) as Hreg1.
    pose proof (deliver_lookup net g ts i j Hreg) as Hlook.
    destruct (BingSearch.deliver net (g, ts) i) as [g1 ts1].
    cbn [snd] in Hreg1, Hlook. rewrite IH, Hlook by done.
    destruct (ts !! j) as [t|]; [|done].
    cbn [fmap option_fmap option_map]. f_equal.
    destruct (decide (j = i)) as [->|Hji].
    + destruct (decide (i ∈ i :: order)) as [_|Hout]; [|destruct Hout; by left].
      destruct (decide (i ∈ order)); by rewrite ?settle_settle.
    + destruct (decide (j ∈ order)) as [Hin|Hout],
        (decide (j ∈ i :: order)) as [Hin'|Hout']; try done.
      * destruct Hout'. by right.
      * inversion Hin'; done.
Qed.

Lemma event_loop_length net order g ts :
  Forall regular ts →
  length (BingSearch.event_loop net order (g, ts)).2 = length ts.
Proof.
  unfold BingSearch.event_loop.
  revert g ts. induction order as [|i order IH]; intros g ts Hreg; cbn [foldl];
    [done|].
  pose proof (deliver_regular net g ts i Hreg) as Hreg1.
  pose proof (deliver_eq net g ts i Hreg) as Hd.
  destruct (BingSearch.deliver net (g, ts) i) as [g1 ts1].
  cbn [snd] in Hreg1. rewrite IH by done.
  destruct (ts !! i) as [[hits|req resume]|]; simplify_eq; [done| |done].
  by rewrite length_insert.
Qed.

(** The class variables after the replies of [order] have been dealt
    with, each by a coroutine that waited for it. *)
Lemma event_loop_state net order g ts :
  Forall regular ts →
  NoDup order →
  (∀ i, i ∈ order → ∃ req resume, ts !! i = Some (BingSearch.Waiting req resume)) →
  (BingSearch.event_loop net order (g, ts)).1 = foldl after_reply g (net <$> order).
Proof.
  unfold BingSearch.event_loop.
  revert g ts. induction order as [|i order IH]; intros g ts Hreg Hnd Hw; [done|].
  apply NoDup_cons in Hnd as [Hi Hnd].
  cbn [foldl fmap list_fmap].
  pose proof (deliver_regular net g ts i Hreg) as Hreg1.
  rewrite deliver_eq in * by done.
  destruct (Hw i) as (req & resume & Hti); [by left|]. rewrite Hti in *.
  apply IH; [done..|]. intros j Hj.
  assert (i ≠ j) by (intros ->; done).
  rewrite list_lookup_insert_ne by done. apply Hw. by right.
Qed.

Lemma event_loop_all_done net order g ts :
  Forall (λ t, ∃ hits, t = BingSearch.Done hits) ts →
  BingSearch.event_loop net order (g, ts) = (g, ts).
Proof.
  intros Hd. unfold BingSearch.event_loop.
  induction order as [|i order IH]; [done|].
  cbn [foldl]. unfold BingSearch.deliver at 2. cbn [fst snd].
  destruct (ts !! i) as [t|] eqn:Hi; [|done].
  rewrite Forall_lookup in Hd. by destruct (Hd i t Hi) as [hits ->].
Qed.

(** Of the replies dealt with, the last one that trips decides. *)
Lemma after_replies_last g replies :
  foldl after_reply g replies
  = from_option BingSearchAPI.mark_unavailable g (last (omap trip_of replies)).
Proof.
  revert g. induction replies as [|u us IH]; intros g; [done|].
  cbn [foldl omap list_omap]. rewrite IH. unfold after_reply.
  destruct (trip_of u) as [d|]; [|done].
  rewrite last_cons. by destruct (last (omap trip_of us)).
Qed.

(** ** Joining the coroutines *)

Lemma started_tasks_regular g cfg params : Forall regular (started_tasks g cfg params).
Proof.
  unfold started_tasks. apply Forall_forall. intros t Ht.
  apply list_elem_of_fmap in Ht as (q & -> & _). apply perform_search_regular.
Qed.

Lemma task_result_settle g cfg params net i q :
  BingSearch.task_result
    (settle net i
       (BingSearch._perform_search g cfg q (clamp (BingSearch.num_results params))
          (BingSearch.language params) (BingSearch.region params)
          (BingSearch.safe_search params) (BingSearch.time_period params)))
  = Some (unit_result g cfg params (net i) q).
Proof.
  unfold unit_result.
  pose proof (perform_search_regular g cfg q (clamp (BingSearch.num_results params))
                (BingSearch.language params) (BingSearch.region params)
                (BingSearch.safe_search params) (BingSearch.time_period params)) as Hreg.
  destruct (BingSearch._perform_search _ _ _ _ _ _ _ _) as [hits|req resume]; [done|].
  cbn [settle BingSearch.task_result]. cbn [regular] in Hreg. by rewrite (Hreg g).
Qed.

Lemma gather_event_loop g cfg params net order :
  (∀ i, i < length (BingSearch.query params) → i ∈ order) →
  BingSearch.gather
    (BingSearch.event_loop net order (g, started_tasks g cfg params)).2
  = Some (imap (λ i q, unit_result g cfg params (net i) q) (BingSearch.query params)).
Proof.
  intros Hall. unfold BingSearch.gather. apply mapM_Some.
  apply Forall2_same_length_lookup_2.
  - rewrite event_loop_length, length_imap by apply started_tasks_regular.
    unfold started_tasks. by rewrite length_map.
  - intros i t hits Ht Hhits.
    rewrite event_loop_lookup in Ht by apply started_tasks_regular.
    unfold started_tasks in Ht. rewrite list_lookup_fmap in Ht.
    rewrite list_lookup_imap in Hhits.
    destruct (BingSearch.query params !! i) as [q|] eqn:Hq; [|done].
    cbn [fmap option_fmap option_map] in Ht, Hhits. simplify_eq.
    rewrite decide_True by (apply Hall; by eapply lookup_lt_Some).
    apply task_result_settle.
Qed.

Lemma handle_queries_results_fold r l :
  output_results
    (foldl (λ result (qr : string * list hit),
              set_search_results qr.1 qr.2 (set_output_results qr.1 qr.2 result)) r l)
  = (output_results r ++ l)%list
  ∧ error
      (foldl (λ result (qr : string * list hit),
                set_search_results qr.1 qr.2 (set_output_results qr.1 qr.2 result)) r l)
    = error r.
Proof.
  revert r. induction l as [|[q hits] l IH]; intros r; cbn [foldl fst snd].
  - by rewrite app_nil_r.
  - destruct (IH (set_search_results q hits (set_output_results q hits r))) as [-> ->].
    cbn. by rewrite <- app_assoc.
Qed.

Lemma fst_imap_pair {A B : Type} (f : nat → A → B) (l : list A) :
  (imap (λ i x, (x, f i x)) l).*1 = l.
Proof.
  revert f. induction l as [|x l IH]; intros f; [done|].
  cbn. f_equal. apply (IH (λ i, f (S i))).
Qed.

Lemma zip_imap {A B : Type} (f : nat → A → B) (l : list A) :
  zip l (imap f l) = imap (λ i x, (x, f i x)) l.
Proof.
  revert f. induction l as [|x l IH]; intros f; [done|].
  cbn. f_equal. apply IH.
Qed.

Lemma batch_return_output queries all_results :
  output_results (batch_return queries all_results) = zip queries all_results.
Proof.
  unfold batch_return, BingSearch._handle_queries_results.
  cbn [set_content output_results].
  by rewrite (proj1 (handle_queries_results_fold _ _)).
Qed.

Lemma batch_return_error queries all_results :
  error (batch_return queries all_results) = None.
Proof.
  unfold batch_return, BingSearch._handle_queries_results.
  cbn [set_content error].
  by rewrite (proj2 (handle_queries_results_fold _ _)).
Qed.

(** A call that gets as far as starting its coroutines returns once every
    reply is in; what it returns is made of what each query yields on its
    own, in the order of the queries. *)
Lemma execute_dispatched g cfg params net order :
  BingSearchAPI._api_unavailable g = false →
  BingSearch.query params ≠ [] →
  (∀ i, i < length (BingSearch.query params) → i ∈ order) →
  BingSearch.execute g cfg params net order
  = Some {| final :=
              (BingSearch.event_loop net order (g, started_tasks g cfg params)).1;
            sent := BingSearch.issued (started_tasks g cfg params);
            returned :=
              batch_return (BingSearch.query params)
                (imap (λ i q, unit_result g cfg params (net i) q)
                   (BingSearch.query params)) |}.
Proof.
  intros Hg Hq Hall. unfold BingSearch.execute.
  rewrite Hg, decide_False by done.
  fold (clamp (BingSearch.num_results params)).
  fold (started_tasks g cfg params).
  pose proof (gather_event_loop g cfg params net order Hall) as Hgather.
  destruct (BingSearch.event_loop net order (g, started_tasks g cfg params))
    as [g' tasks'].
  cbn [snd] in Hgather. by rewrite Hgather.
Qed.

Lemma execute_unavailable g cfg params net order :
  BingSearchAPI._api_unavailable g = true →
  BingSearch.execute g cfg params net order
  = Some {| final := g; sent := []; returned := unavailable_return g |}.
Proof. intros Hg. unfold BingSearch.execute. by rewrite Hg. Qed.

Lemma execute_empty_query g cfg params net order :
  BingSearchAPI._api_unavailable g = false →
  BingSearch.query params = [] →
  BingSearch.execute g cfg params net order
  = Some {| final := g; sent := [];
            returned := result_of_content (Text "搜索查询不能为空") |}.
Proof.
  intros Hg Hq. unfold BingSearch.execute. by rewrite Hg, decide_True by done.
Qed.

Lemma permutation_covers n (order : list nat) :
  order ≡ₚ seq 0 n → ∀ i, i < n → i ∈ order.
Proof. intros Hp i Hi. rewrite Hp. apply elem_of_seq. lia. Qed.

Lemma permutation_within n (order : list nat) :
  order ≡ₚ seq 0 n → NoDup order ∧ ∀ i, i ∈ order → i < n.
Proof.
  intros Hp. split.
  - rewrite Hp. apply NoDup_seq.
  - intros i Hi. rewrite Hp in Hi. apply elem_of_seq in Hi. lia.
Qed.

(** Whatever the state of the breaker and whatever the queries, a call
    returns once every reply is in. *)
Lemma execute_cases g cfg params net order :
  order ≡ₚ seq 0 (length (BingSearch.query params)) →
  ∃ o, BingSearch.execute g cfg params net order = Some o
       ∧ (output_results (returned o) = []
          ∨ output_results (returned o)
            = imap (λ i q, (q, unit_result g cfg params (net i) q))
                (BingSearch.query params)).
Proof.
  intros Hp.
  destruct (BingSearchAPI._api_unavailable g) eqn:Hg.
  { eexists. split; [by apply execute_unavailable|]. by left. }
  destruct (decide (BingSearch.query params = [])) as [Hq|Hq].
  { eexists. split; [by apply execute_empty_query|]. by left. }
  eexists. split.
  - apply execute_dispatched; [done..|]. by apply permutation_covers.
  - right. cbn [returned]. rewrite batch_return_output. apply zip_imap.
Qed.

(** ** One query on its own *)

Lemma unit_result_length g cfg params u q :
  (0 ≤ BingSearch.num_results params)%Z →
  (length (unit_result g cfg params u q)
   ≤ Z.to_nat (clamp (BingSearch.num_results params)))%nat.
Proof.
  intros Hn. unfold unit_result.
  destruct (BingSearch._perform_search _ _ _ _ _ _ _ _) as [hits|req resume] eqn:Hp.
  - apply perform_search_done in Hp as ->. cbn. lia.
  - apply perform_search_waiting in Hp as (_ & _ & _ & _ & _ & Hlen).
    apply Hlen. unfold clamp, BingSearch.MAX_RESULTS. case_decide; lia.
Qed.

Lemma unit_result_failure g cfg params u q :
  confined_failure u → unit_result g cfg params u q = [].
Proof.
  intros Hu. unfold unit_result.
  destruct (BingSearch._perform_search _ _ _ _ _ _ _ _) as [hits|req resume] eqn:Hp.
  - by apply perform_search_done in Hp.
  - apply perform_search_waiting in Hp as (_ & _ & _ & _ & Hfail & _). by apply Hfail.
Qed.

Lemma started_tasks_closed g cfg params :
  BingSearchAPI._api_unavailable g = false →
  config_get cfg "bing.search_api_key" "" ≠ "" →
  ∀ i, i < length (BingSearch.query params) →
       ∃ req resume,
         started_tasks g cfg params !! i = Some (BingSearch.Waiting req resume).
Proof.
  intros Hg Hkey i Hi. unfold started_tasks. rewrite list_lookup_fmap.
  destruct (lookup_lt_is_Some_2 _ _ Hi) as [q ->]. cbn [fmap option_fmap option_map].
  destruct (perform_search_closed g cfg q (clamp (BingSearch.num_results params))
              (BingSearch.language params) (BingSearch.region params)
              (BingSearch.safe_search params) (BingSearch.time_period params) Hg Hkey)
    as (req & resume & ->).
  by eexists _, _.
Qed.

Lemma started_tasks_no_key g cfg params :
  BingSearchAPI._api_unavailable g = false →
  config_get cfg "bing.search_api_key" "" = "" →
  started_tasks g cfg params = (λ _, BingSearch.Done []) <$> BingSearch.query params.
Proof.
  intros Hg Hkey. unfold started_tasks. apply list_fmap_ext. intros i q _.
  by apply perform_search_no_key.
Qed.

(** The class variables after a call whose queries were all sent out: the
    replies are dealt with in the order of their arrival, and the last 401
    among them decides. *)
Lemma execute_final_state g cfg params net order :
  BingSearchAPI._api_unavailable g = false →
  config_get cfg "bing.search_api_key" "" ≠ "" →
  order ≡ₚ seq 0 (length (BingSearch.query params)) →
  (BingSearch.event_loop net order (g, started_tasks g cfg params)).1
  = from_option BingSearchAPI.mark_unavailable g (last (omap trip_of (net <$> order))).
Proof.
  intros Hg Hkey Hp. destruct (permutation_within _ _ Hp) as [Hnd Hlt].
  rewrite event_loop_state;
    [apply after_replies_last|apply started_tasks_regular|done|].
  intros i Hi. apply started_tasks_closed; auto.
Qed.

(** ** The breaker *)





(** ** The missing credential *)

(** C2, as the code has it: with the breaker closed and no credential,
    [_search] raises the error before any request is made and [results]
    lets it through, but [_perform_search] turns it into an empty list; the
    call of the tool sends nothing and returns, without an error, every
    query with an empty list of hits. *)
Theorem missing_credential_is_absorbed
    (g : BingSearchAPI.cls) (cfg : gmap string string)
    (params : BingSearch.BingSearchParams) (net : nat → upstream) (order : list nat) :
  BingSearchAPI._api_unavailable g = false →
  config_get cfg "bing.search_api_key" "" = "" →
  BingSearch.query params ≠ [] →
  (∀ search_kwargs k q limit,
     BingSearchAPI._search g (BingSearchAPI.__init__ cfg k search_kwargs) q limit
     = BingSearchAPI.Raised (ValueError "Bing Search API key is required")
     ∧ BingSearchAPI.results g (BingSearchAPI.__init__ cfg k search_kwargs) q limit
       = BingSearchAPI.Raised (ValueError "Bing Search API key is required"))
  ∧ (∀ q n language region safe_search time_period,
       BingSearch._perform_search g cfg q n language region safe_search time_period
       = BingSearch.Done [])
  ∧ ∃ o, BingSearch.execute g cfg params net order = Some o
         ∧ final o = g
         ∧ sent o = []
         ∧ error (returned o) = None
         ∧ output_results (returned o) = (λ q, (q, [])) <$> BingSearch.query params.
Proof.
  intros Hg Hkey Hq. split; [|split].
  - intros kw k q limit.
    unfold BingSearchAPI.results, BingSearchAPI._search.
    rewrite Hg. cbn [BingSearchAPI.subscription_key BingSearchAPI.__init__].
    by rewrite !decide_True by done.
  - intros. by apply perform_search_no_key.
  - unfold BingSearch.execute. rewrite Hg, decide_False by done.
    fold (clamp (BingSearch.num_results params)).
    fold (started_tasks g cfg params).
    rewrite started_tasks_no_key by done.
    rewrite event_loop_all_done
      by (apply Forall_forall; intros t Ht;
          apply list_elem_of_fmap in Ht as (q & -> & _); by eexists).
    assert (BingSearch.gather ((λ _, BingSearch.Done []) <$> BingSearch.query params)
            = Some ((λ _, []) <$> BingSearch.query params)) as ->.
    { unfold BingSearch.gather. apply mapM_Some.
      apply Forall2_fmap, Forall_Forall2_diag, Forall_true. done. }
    cbn [mbind option_bind]. eexists. split; [reflexivity|].
    cbn [final sent returned]. fold (batch_return (BingSearch.query params)
      ((λ _, []) <$> BingSearch.query params)).
    rewrite batch_return_error, batch_return_output. repeat split.
    + clear. induction (BingSearch.query params) as [|q qs IH]; [done|].
      cbn [fmap list_fmap BingSearch.issued omap list_omap]. apply IH.
    + clear. induction (BingSearch.query params) as [|q qs IH]; [done|].
      cbn [fmap list_fmap zip zip_with]. f_equal. apply IH.
Qed.

Lemma missing_credential_is_absorbed_witness :
  (∀ search_kwargs k q limit,
     BingSearchAPI._search BingSearchAPI.initial
       (BingSearchAPI.__init__ ∅ k search_kwargs) q limit
     = BingSearchAPI.Raised (ValueError "Bing Search API key is required")
     ∧ BingSearchAPI.results BingSearchAPI.initial
         (BingSearchAPI.__init__ ∅ k search_kwargs) q limit
       = BingSearchAPI.Raised (ValueError "Bing Search API key is required"))
  ∧ (∀ q n language region safe_search time_period,
       BingSearch._perform_search BingSearchAPI.initial ∅ q n language region
         safe_search time_period
       = BingSearch.Done [])
  ∧ ∃ o, BingSearch.execute BingSearchAPI.initial ∅ (BingSearch.with_defaults ["cats"])
           (λ _, reply_ok [sample_item]) [0] = Some o
         ∧ final o = BingSearchAPI.initial
         ∧ sent o = []
         ∧ error (returned o) = None
         ∧ output_results (returned o)
           = (λ q, (q, [])) <$> BingSearch.query (BingSearch.with_defaults ["cats"]).
Proof.
  apply (missing_credential_is_absorbed BingSearchAPI.initial ∅
           (BingSearch.with_defaults ["cats"]) (λ _, reply_ok [sample_item]) [0]).
  - reflexivity.
  - reflexivity.
  - discriminate.
Defined.

(** C2, counterexample: a call without a credential, against an upstream
    that would list a page, returns the very value that a call with a
    credential returns when the upstream lists nothing; no error is set. *)
Lemma missing_credential_looks_like_no_results :
  returned <$> BingSearch.execute BingSearchAPI.initial ∅
                 (BingSearch.with_defaults ["cats"]) (λ _, reply_ok [sample_item]) [0]
  = returned <$> BingSearch.execute BingSearchAPI.initial sample_cfg
                   (BingSearch.with_defaults ["cats"]) (λ _, reply_ok []) [0]
  ∧ (error ∘ returned) <$> BingSearch.execute BingSearchAPI.initial ∅
                  (BingSearch.with_defaults ["cats"]) (λ _, reply_ok [sample_item]) [0]
    = Some None
  ∧ (output_results ∘ returned) <$> BingSearch.execute BingSearchAPI.initial ∅
                  (BingSearch.with_defaults ["cats"]) (λ _, reply_ok [sample_item]) [0]
    = Some [("cats", [])].
Proof. by vm_compute. Qed.

(** ** The request *)

Lemma build_search_params_safe_search n language region safe_search time_period :
  BingSearch.build_search_params n language region safe_search time_period !! "safeSearch"
  = Some (PyStr (if safe_search then "Strict" else "Off")).
Proof.
  unfold BingSearch.build_search_params.
  destruct time_period as [tp|]; repeat case_decide;
    destruct safe_search; by rewrite ?lookup_insert_ne, ?lookup_insert_eq by done.
Qed.

(** C3, on the code: with the breaker closed and a credential configured,
    the GET that [_perform_search] has sent carries the four parameters
    [q], [count], [mkt] and [setLang] and no other: neither [safeSearch]
    nor [freshness] is among them, though the dictionary [search_params]
    binds [safeSearch] (and [freshness] for day, week and month). *)
Theorem request_carries_four_parameters
    (g : BingSearchAPI.cls) (cfg : gmap string string) (q : string) (n : Z)
    (language region : string) (safe_search : bool) (time_period : option string) :
  BingSearchAPI._api_unavailable g = false →
  config_get cfg "bing.search_api_key" "" ≠ "" →
  ∃ req resume,
    BingSearch._perform_search g cfg q n language region safe_search time_period
    = BingSearch.Waiting req resume
    ∧ req_params req = four_params q n language region
    ∧ req_params req !! "q" = Some (PyStr q)
    ∧ req_params req !! "count" = Some (PyInt n)
    ∧ req_params req !! "mkt" = Some (PyStr (language +:+ "-" +:+ region))
    ∧ req_params req !! "setLang" = Some (PyStr language)
    ∧ req_params req !! "safeSearch" = None
    ∧ req_params req !! "freshness" = None
    ∧ BingSearch.build_search_params n language region safe_search time_period
        !! "safeSearch"
      = Some (PyStr (if safe_search then "Strict" else "Off")).
Proof.
  intros Hg Hkey.
  destruct (perform_search_closed g cfg q n language region safe_search time_period
              Hg Hkey) as (req & resume & Hp).
  exists req, resume. split; [done|].
  apply perform_search_waiting in Hp as (_ & _ & -> & _).
  cbn [req_params]. unfold four_params.
  repeat split; try by rewrite ?lookup_insert_ne, ?lookup_insert_eq by done.
  apply build_search_params_safe_search.
Qed.

Lemma request_carries_four_parameters_witness :
  ∃ req resume,
    BingSearch._perform_search BingSearchAPI.initial sample_cfg "cats" 10
      "zh-CN" "CN" true (Some "day")
    = BingSearch.Waiting req resume
    ∧ req_params req = four_params "cats" 10 "zh-CN" "CN"
    ∧ req_params req !! "q" = Some (PyStr "cats")
    ∧ req_params req !! "count" = Some (PyInt 10)
    ∧ req_params req !! "mkt" = Some (PyStr ("zh-CN" +:+ "-" +:+ "CN"))
    ∧ req_params req !! "setLang" = Some (PyStr "zh-CN")
    ∧ req_params req !! "safeSearch" = None
    ∧ req_params req !! "freshness" = None
    ∧ BingSearch.build_search_params 10 "zh-CN" "CN" true (Some "day") !! "safeSearch"
      = Some (PyStr (if true then "Strict" else "Off")).
Proof.
  apply (request_carries_four_parameters BingSearchAPI.initial sample_cfg "cats" 10
           "zh-CN" "CN" true (Some "day")).
  - reflexivity.
  - vm_compute. discriminate.
Defined.

(** What [search_params] holds for the same call: the two keys the GET
    lacks. *)
Example search_params_of_the_sample_call :
  BingSearch.build_search_params 10 "zh-CN" "CN" true (Some "day") !! "safeSearch"
  = Some (PyStr "Strict")
  ∧ BingSearch.build_search_params 10 "zh-CN" "CN" true (Some "day") !! "freshness"
    = Some (PyStr "Day")
  ∧ BingSearch.build_search_params 10 "zh-CN" "CN" false (Some "year") !! "freshness"
    = None.
Proof. by vm_compute. Qed.

(** ** A tripped breaker *)




(** ** The batch *)

(** C5: a call with [N] queries that gets as far as starting its
    coroutines returns, whatever the order in which the replies come in,
    [N] outcomes; the outcome at position [i] is the query at position [i]
    with what this query yields on its own against its reply, and any other
    order of arrival leads to the same returned value. *)
Theorem batch_result_in_input_order
    (g : BingSearchAPI.cls) (cfg : gmap string string)
    (params : BingSearch.BingSearchParams) (net : nat → upstream) (order : list nat) :
  BingSearchAPI._api_unavailable g = false →
  BingSearch.query params ≠ [] →
  order ≡ₚ seq 0 (length (BingSearch.query params)) →
  ∃ o, BingSearch.execute g cfg params net order = Some o
    ∧ length (output_results (returned o)) = length (BingSearch.query params)
    ∧ (output_results (returned o)).*1 = BingSearch.query params
    ∧ (∀ i q, BingSearch.query params !! i = Some q →
              output_results (returned o) !! i
              = Some (q, unit_result g cfg params (net i) q))
    ∧ (∀ order', order' ≡ₚ seq 0 (length (BingSearch.query params)) →
                 returned <$> BingSearch.execute g cfg params net order'
                 = Some (returned o)).
Proof.
  intros Hg Hq Hp. eexists. split.
  { apply execute_dispatched; [done..|]. by apply permutation_covers. }
  cbn [returned]. rewrite batch_return_output, zip_imap.
  split; [by rewrite length_imap|]. split; [|split].
  - apply fst_imap_pair.
  - intros i q Hi. rewrite list_lookup_imap, Hi. done.
  - intros order' Hp'. rewrite execute_dispatched; [done..|].
    by apply permutation_covers.
Qed.

Lemma batch_result_in_input_order_witness :
  ∃ o, BingSearch.execute BingSearchAPI.initial sample_cfg
         (BingSearch.with_defaults ["cats"; "dogs"; "cats"])
         (λ i, if decide (i = 1) then reply_status 500 "busy" else reply_ok [sample_item])
         [2; 0; 1] = Some o
    ∧ length (output_results (returned o))
      = length (BingSearch.query (BingSearch.with_defaults ["cats"; "dogs"; "cats"]))
    ∧ (output_results (returned o)).*1
      = BingSearch.query (BingSearch.with_defaults ["cats"; "dogs"; "cats"])
    ∧ (∀ i q, BingSearch.query (BingSearch.with_defaults ["cats"; "dogs"; "cats"]) !! i
              = Some q →
              output_results (returned o) !! i
              = Some (q, unit_result BingSearchAPI.initial sample_cfg
                           (BingSearch.with_defaults ["cats"; "dogs"; "cats"])
                           ((λ i, if decide (i = 1) then reply_status 500 "busy"
                                  else reply_ok [sample_item]) i) q))
    ∧ (∀ order',
         order' ≡ₚ seq 0 (length (BingSearch.query
                                    (BingSearch.with_defaults ["cats"; "dogs"; "cats"]))) →
         returned <$> BingSearch.execute BingSearchAPI.initial sample_cfg
                        (BingSearch.with_defaults ["cats"; "dogs"; "cats"])
                        (λ i, if decide (i = 1) then reply_status 500 "busy"
                              else reply_ok [sample_item])
                        order'
         = Some (returned o)).
Proof.
  apply (batch_result_in_input_order BingSearchAPI.initial sample_cfg
           (BingSearch.with_defaults ["cats"; "dogs"; "cats"])
           (λ i, if decide (i = 1) then reply_status 500 "busy" else reply_ok [sample_item])
           [2; 0; 1]).
  - reflexivity.
  - discriminate.
  - apply (Permutation_cons_append [0; 1] 2).
Defined.

(** C6: for a requested count that is not negative, a call returns once
    every reply is in, and no list of hits it returns is longer than the
    lesser of the requested count and 10. *)
Theorem hit_lists_within_requested_count
    (g : BingSearchAPI.cls) (cfg : gmap string string)
    (params : BingSearch.BingSearchParams) (net : nat → upstream) (order : list nat) :
  (0 ≤ BingSearch.num_results params)%Z →
  order ≡ₚ seq 0 (length (BingSearch.query params)) →
  ∃ o, BingSearch.execute g cfg params net order = Some o
    ∧ ∀ q hits, (q, hits) ∈ output_results (returned o) →
                (Z.of_nat (length hits) ≤ Z.min (BingSearch.num_results params) 10)%Z.
Proof.
  intros Hn Hp.
  destruct (execute_cases g cfg params net order Hp) as (o & Ho & [Hnil|Hexp]).
  - exists o. split; [done|]. intros q hits Hin. rewrite Hnil in Hin.
    by apply elem_of_nil in Hin.
  - exists o. split; [done|]. intros q hits Hin. rewrite Hexp in Hin.
    apply list_elem_of_lookup in Hin as [i Hi].
    rewrite list_lookup_imap in Hi.
    destruct (BingSearch.query params !! i) as [q'|]; [|done].
    cbn [fmap option_fmap option_map] in Hi. simplify_eq.
    pose proof (unit_result_length g cfg params (net i) q Hn) as Hlen.
    unfold clamp, BingSearch.MAX_RESULTS in Hlen. case_decide; lia.
Qed.

Lemma hit_lists_within_requested_count_witness :
  ∃ o, BingSearch.execute BingSearchAPI.initial sample_cfg
         {| BingSearch.query := ["cats"]; BingSearch.num_results := 50;
            BingSearch.language := "zh-CN"; BingSearch.region := "CN";
            BingSearch.safe_search := true; BingSearch.time_period := None |}
         (λ _, reply_ok (replicate 12 sample_item)) [0] = Some o
    ∧ ∀ q hits, (q, hits) ∈ output_results (returned o) →
                (Z.of_nat (length hits) ≤ Z.min 50 10)%Z.
Proof.
  apply (hit_lists_within_requested_count BingSearchAPI.initial sample_cfg
           {| BingSearch.query := ["cats"]; BingSearch.num_results := 50;
              BingSearch.language := "zh-CN"; BingSearch.region := "CN";
              BingSearch.safe_search := true; BingSearch.time_period := None |}
           (λ _, reply_ok (replicate 12 sample_item)) [0]).
  - cbn. lia.
  - reflexivity.
Defined.

(** The two counts the specification names, on an upstream that lists
    twelve pages; and a negative count, which the slice reads from the end
    of the list. *)
Example counts_50_3_and_minus_1 :
  (λ o, length <$> (output_results (returned o)).*2)
    <$> BingSearch.execute BingSearchAPI.initial sample_cfg
          {| BingSearch.query := ["cats"]; BingSearch.num_results := 50;
             BingSearch.language := "zh-CN"; BingSearch.region := "CN";
             BingSearch.safe_search := true; BingSearch.time_period := None |}
          (λ _, reply_ok (replicate 12 sample_item)) [0]
  = Some [10]
  ∧ (λ o, length <$> (output_results (returned o)).*2)
      <$> BingSearch.execute BingSearchAPI.initial sample_cfg
            {| BingSearch.query := ["cats"]; BingSearch.num_results := 3;
               BingSearch.language := "zh-CN"; BingSearch.region := "CN";
               BingSearch.safe_search := true; BingSearch.time_period := None |}
            (λ _, reply_ok (replicate 12 sample_item)) [0]
    = Some [3]
  ∧ (λ o, length <$> (output_results (returned o)).*2)
      <$> BingSearch.execute BingSearchAPI.initial sample_cfg
            {| BingSearch.query := ["cats"]; BingSearch.num_results := -1;
               BingSearch.language := "zh-CN"; BingSearch.region := "CN";
               BingSearch.safe_search := true; BingSearch.time_period := None |}
            (λ _, reply_ok (replicate 12 sample_item)) [0]
    = Some [11].
Proof. by vm_compute. Qed.

(** C7: take a call that gets as far as starting its coroutines, and two
    runs of it whose replies differ for query number [a] only, the reply to
    [a] in the second run being a failure other than a 401.  Whatever the
    two orders of arrival, both runs return; the second returns no error,
    pairs query [a] with the empty list, and every other position holds in
    it what it holds in the first. *)
Theorem failure_of_one_query_is_confined
    (g : BingSearchAPI.cls) (cfg : gmap string string)
    (params : BingSearch.BingSearchParams) (net net' : nat → upstream)
    (order order' : list nat) (a : nat) (qa : string) :
  BingSearchAPI._api_unavailable g = false →
  BingSearch.query params !! a = Some qa →
  order ≡ₚ seq 0 (length (BingSearch.query params)) →
  order' ≡ₚ seq 0 (length (BingSearch.query params)) →
  (∀ b, b ≠ a → net' b = net b) →
  confined_failure (net' a) →
  ∃ o o', BingSearch.execute g cfg params net order = Some o
    ∧ BingSearch.execute g cfg params net' order' = Some o'
    ∧ error (returned o') = None
    ∧ length (output_results (returned o')) = length (BingSearch.query params)
    ∧ output_results (returned o') !! a = Some (qa, [])
    ∧ ∀ b, b ≠ a →
           output_results (returned o') !! b = output_results (returned o) !! b.
Proof.
  intros Hg Ha Hp Hp' Hsame Hfail.
  assert (BingSearch.query params ≠ []) as Hq by (intros Hnil; by rewrite Hnil in Ha).
  eexists _, _. split; [|split].
  { apply execute_dispatched; [done..|]. by apply permutation_covers. }
  { apply execute_dispatched; [done..|]. by apply permutation_covers. }
  cbn [returned]. rewrite batch_return_error, !batch_return_output, !zip_imap.
  split; [done|]. split; [by rewrite length_imap|]. split.
  - rewrite list_lookup_imap, Ha. cbn [fmap option_fmap option_map].
    by rewrite unit_result_failure.
  - intros b Hb. rewrite !list_lookup_imap. by rewrite Hsame.
Qed.

Lemma failure_of_one_query_is_confined_witness :
  ∃ o o', BingSearch.execute BingSearchAPI.initial sample_cfg
            (BingSearch.with_defaults ["cats"; "dogs"])
            (λ _, reply_ok [sample_item]) [0; 1] = Some o
    ∧ BingSearch.execute BingSearchAPI.initial sample_cfg
        (BingSearch.with_defaults ["cats"; "dogs"])
        (λ i, if decide (i = 0) then reply_status 500 "busy" else reply_ok [sample_item])
        [1; 0] = Some o'
    ∧ error (returned o') = None
    ∧ length (output_results (returned o'))
      = length (BingSearch.query (BingSearch.with_defaults ["cats"; "dogs"]))
    ∧ output_results (returned o') !! 0 = Some ("cats", [])
    ∧ ∀ b, b ≠ 0 →
           output_results (returned o') !! b = output_results (returned o) !! b.
Proof.
  apply (failure_of_one_query_is_confined BingSearchAPI.initial sample_cfg
           (BingSearch.with_defaults ["cats"; "dogs"])
           (λ _, reply_ok [sample_item])
           (λ i, if decide (i = 0) then reply_status 500 "busy" else reply_ok [sample_item])
           [0; 1] [1; 0] 0 "cats").
  - reflexivity.
  - reflexivity.
  - reflexivity.
  - apply perm_swap.
  - intros b Hb. by rewrite decide_False.
  - apply failure_status; cbn; lia.
Defined.

(** ** The empty list of queries *)

(** C9, as the code has it: a call without queries sends nothing and
    leaves the class variables as they are.  With the breaker closed it
    returns the sentence that the query must not be empty; with the breaker
    open it returns the error that quotes the recorded reason, for the
    breaker is looked at first. *)
Theorem empty_query_short_circuits
    (g : BingSearchAPI.cls) (cfg : gmap string string)
    (params : BingSearch.BingSearchParams) (net : nat → upstream) (order : list nat) :
  BingSearch.query params = [] →
  BingSearch.execute g cfg params net order
  = Some {| final := g; sent := [];
            returned :=
              if BingSearchAPI._api_unavailable g
              then result_of_error
                     ("搜索服务不可用: " +:+ BingSearchAPI._api_unavailable_reason g)
              else result_of_content (Text "搜索查询不能为空") |}.
Proof.
  intros Hq. destruct (BingSearchAPI._api_unavailable g) eqn:Hg.
  - by rewrite execute_unavailable.
  - by rewrite execute_empty_query.
Qed.

Lemma empty_query_short_circuits_witness :
  BingSearch.execute BingSearchAPI.initial sample_cfg (BingSearch.with_defaults [])
    (λ _, reply_ok [sample_item]) []
  = Some {| final := BingSearchAPI.initial; sent := [];
            returned :=
              if BingSearchAPI._api_unavailable BingSearchAPI.initial
              then result_of_error
                     ("搜索服务不可用: "
                      +:+ BingSearchAPI._api_unavailable_reason BingSearchAPI.initial)
              else result_of_content (Text "搜索查询不能为空") |}.
Proof.
  apply (empty_query_short_circuits BingSearchAPI.initial sample_cfg
           (BingSearch.with_defaults []) (λ _, reply_ok [sample_item]) []).
  reflexivity.
Defined.

(** C9, counterexample: with the breaker open, a call without queries does
    not say that there is nothing to search; it returns the error of the
    unavailable service, which is not the value returned when the breaker
    is closed. *)
Lemma empty_query_with_open_breaker :
  (error ∘ returned)
    <$> BingSearch.execute (BingSearchAPI.mark_unavailable "denied") sample_cfg
          (BingSearch.with_defaults []) (λ _, reply_ok [sample_item]) []
  = Some (Some "搜索服务不可用: API密钥无效或API端点错误: denied")
  ∧ returned
      <$> BingSearch.execute (BingSearchAPI.mark_unavailable "denied") sample_cfg
            (BingSearch.with_defaults []) (λ _, reply_ok [sample_item]) []
    ≠ Some (result_of_content (Text "搜索查询不能为空")).
Proof. split; [by vm_compute|]. vm_compute. discriminate. Qed.

(** ** A requested count of zero *)

(** C10: with the breaker closed and a requested count of 0, a call
    returns once every reply is in; every GET it sent asks for a count of
    0, and every query is paired with the empty list, whatever the
    upstream replied. *)
Theorem zero_count_yields_no_hits
    (g : BingSearchAPI.cls) (cfg : gmap string string)
    (params : BingSearch.BingSearchParams) (net : nat → upstream) (order : list nat) :
  BingSearchAPI._api_unavailable g = false →
  BingSearch.num_results params = 0%Z →
  order ≡ₚ seq 0 (length (BingSearch.query params)) →
  ∃ o, BingSearch.execute g cfg params net order = Some o
    ∧ (∀ r, r ∈ sent o → req_params r !! "count" = Some (PyInt 0))
    ∧ (BingSearch.query params ≠ [] →
       output_results (returned o) = (λ q, (q, [])) <$> BingSearch.query params)
    ∧ ∀ q hits, (q, hits) ∈ output_results (returned o) → hits = [].
Proof.
  intros Hg Hn Hp.
  assert (∀ u q, unit_result g cfg params u q = []) as Hunit.
  { intros u q. apply length_zero_iff_nil.
    pose proof (unit_result_length g cfg params u q) as Hlen.
    rewrite Hn in Hlen. unfold clamp, BingSearch.MAX_RESULTS in Hlen.
    rewrite decide_False in Hlen by lia. cbn in Hlen. lia. }
  destruct (decide (BingSearch.query params = [])) as [Hq|Hq].
  { eexists. split; [by apply execute_empty_query|]. cbn [sent returned].
    split; [|split]; [|done|].
    - intros r Hr. by apply elem_of_nil in Hr.
    - intros q hits Hin. by apply elem_of_nil in Hin. }
  eexists. split.
  { apply execute_dispatched; [done..|]. by apply permutation_covers. }
  cbn [sent returned]. rewrite batch_return_output, zip_imap.
  split; [|split].
  - intros r Hr. unfold BingSearch.issued, started_tasks in Hr.
    apply list_elem_of_omap in Hr as (t & Ht & Hr).
    apply list_elem_of_fmap in Ht as (q & -> & _).
    rewrite Hn in Hr. unfold clamp, BingSearch.MAX_RESULTS in Hr.
    rewrite decide_False in Hr by lia.
    destruct (BingSearch._perform_search _ _ _ _ _ _ _ _) as [hits|req resume] eqn:Hps;
      [done|].
    apply perform_search_waiting in Hps as (_ & _ & -> & _). simplify_eq.
    cbn [req_params]. unfold four_params.
    by rewrite lookup_insert_ne, lookup_insert_eq.
  - intros _. rewrite <- imap_const. apply imap_ext. intros i q _.
    by rewrite Hunit.
  - intros q hits Hin. apply list_elem_of_lookup in Hin as [i Hi].
    rewrite list_lookup_imap in Hi.
    destruct (BingSearch.query params !! i); [|done].
    cbn [fmap option_fmap option_map] in Hi. simplify_eq. apply Hunit.
Qed.

Lemma zero_count_yields_no_hits_witness :
  ∃ o, BingSearch.execute BingSearchAPI.initial sample_cfg
         {| BingSearch.query := ["cats"; "dogs"]; BingSearch.num_results := 0;
            BingSearch.language := "zh-CN"; BingSearch.region := "CN";
            BingSearch.safe_search := true; BingSearch.time_period := None |}
         (λ _, reply_ok [sample_item; sample_item]) [0; 1] = Some o
    ∧ (∀ r, r ∈ sent o → req_params r !! "count" = Some (PyInt 0))
    ∧ (["cats"; "dogs"] ≠ [] →
       output_results (returned o) = (λ q, (q, [])) <$> ["cats"; "dogs"])
    ∧ ∀ q hits, (q, hits) ∈ output_results (returned o) → hits = [].
Proof.
  apply (zero_count_yields_no_hits BingSearchAPI.initial sample_cfg
           {| BingSearch.query := ["cats"; "dogs"]; BingSearch.num_results := 0;
              BingSearch.language := "zh-CN"; BingSearch.region := "CN";
              BingSearch.safe_search := true; BingSearch.time_period := None |}
           (λ _, reply_ok [sample_item; sample_item]) [0; 1]).
  - reflexivity.
  - reflexivity.
  - reflexivity.
Defined.

(** ** Domain and favicon *)

#[local] Arguments String.append : simpl nomatch.

Lemma strip_app p s : Re.strip p (p +:+ s) = Some s.
Proof. induction p as [|a p IH]; [done|]. cbn. by rewrite decide_True. Qed.

Lemma strip_Some p s r : Re.strip p s = Some r → s = p +:+ r.
Proof.
  revert s. induction p as [|a p IH]; intros s; cbn.
  - by intros [= ->].
  - destruct s as [|b s]; [done|]. case_decide; [|done].
    intros Hs. subst b. f_equal. by apply IH.
Qed.

Lemma host_span_split s :
  ∃ rest, s = Re.host_span s +:+ rest ∧ (rest = "" ∨ ∃ r, rest = String Re.slash r).
Proof.
  induction s as [|a s (rest & Hs & Hrest)]; cbn.
  - exists "". auto.
  - case_decide as Ha.
    + subst a. exists (String Re.slash s). split; [done|]. right. by exists s.
    + exists rest. split; [|done]. cbn. by rewrite <- Hs.
Qed.

Lemma host_span_idem s : Re.host_span (Re.host_span s) = Re.host_span s.
Proof.
  induction s as [|a s IH]; [done|]. cbn. case_decide as Ha; [done|].
  cbn. by rewrite decide_False, IH.
Qed.


Lemma host_span_app_nonempty h rest :
  h ≠ "" → Re.host_span h = h → Re.host_span (h +:+ rest) ≠ "".
Proof.
  intros Hne Hh. destruct h as [|a h]; [done|]. cbn in *.
  by case_decide.
Qed.

Lemma authority_spec s :
  Re.authority s
  = match Re.strip "://" s with
    | Some r => if decide (Re.host_span r = "") then None else Some (Re.host_span r)
    | None => None
    end.
Proof.
  unfold Re.authority. destruct (Re.strip "://" s) as [r|]; [|done].
  by destruct (Re.host_span r).
Qed.

Lemma authority_not_colon a s : a ≠ ":"%char → Re.authority (String a s) = None.
Proof.
  intros Ha. unfold Re.authority. cbn [Re.strip].
  destruct (decide (":"%char = a)) as [Heq|Hne]; [by destruct Ha|done].
Qed.

(** The anchored pattern on a string that starts with a scheme and [://]. *)
Lemma match_here_scheme scheme r :
  scheme = "http" ∨ scheme = "https" →
  Re.match_here (scheme +:+ "://" +:+ r)
  = if decide (Re.host_span r = "") then None else Some (Re.host_span r).
Proof.
  intros [->| ->]; unfold Re.match_here.
  - rewrite strip_app. cbn [String.append]. rewrite authority_spec.
    change (String ":" (String "/" (String "/" r))) with ("://" +:+ r).
    by rewrite strip_app.
  - change ("https" +:+ "://" +:+ r) with ("http" +:+ String "s" ("://" +:+ r)).
    rewrite strip_app. rewrite authority_spec, strip_app.
    case_decide; [|done]. by apply authority_not_colon.
Qed.

Lemma match_here_Some s h :
  Re.match_here s = Some h →
  ∃ scheme r, s = scheme +:+ "://" +:+ r
              ∧ (scheme = "http" ∨ scheme = "https")
              ∧ Re.host_span r = h ∧ h ≠ "".
Proof.
  unfold Re.match_here.
  destruct (Re.strip "http" s) as [r0|] eqn:Hstrip; [|done].
  apply strip_Some in Hstrip as ->.
  assert (∀ t, Re.authority t = Some h →
               ∃ r, t = "://" +:+ r ∧ Re.host_span r = h ∧ h ≠ "") as Hauth.
  { intros t. rewrite authority_spec.
    destruct (Re.strip "://" t) as [r|] eqn:Ht; [|done].
    apply strip_Some in Ht as ->. case_decide; [done|].
    intros [= <-]. by exists r. }
  intros Hm.
  assert (Re.authority r0 = Some h
          ∨ ∃ r', r0 = String "s" r' ∧ Re.authority r' = Some h) as [Ha|(r' & -> & Ha)].
  { destruct r0 as [|a r']; [by left|].
    destruct (decide (a = "s"%char)) as [->|Hs].
    - destruct (Re.authority r') eqn:Ha'; [right; exists r'; by simplify_eq|by left].
    - left. destruct a as [[] [] [] [] [] [] [] []]; try done. }
  - destruct (Hauth _ Ha) as (r & -> & Hr & Hh).
    exists "http", r. auto.
  - destruct (Hauth _ Ha) as (r & -> & Hr & Hh).
    exists "https", r. auto.
Qed.

Lemma search_unfold s :
  Re.search s
  = match Re.match_here s with
    | Some h => Some h
    | None => match s with
              | EmptyString => None
              | String _ s' => Re.search s'
              end
    end.
Proof. by destruct s. Qed.

(** What [re.search] finds is a host that follows a scheme and [://]
    somewhere in the string, taken up to the next slash or to the end. *)
Lemma search_Some url h :
  Re.search url = Some h →
  ∃ before scheme rest,
    url = before +:+ scheme +:+ "://" +:+ h +:+ rest
    ∧ (scheme = "http" ∨ scheme = "https")
    ∧ h ≠ ""
    ∧ Re.host_span h = h
    ∧ (rest = "" ∨ ∃ r, rest = String Re.slash r).
Proof.
  induction url as [|a url IH]; rewrite search_unfold.
  - destruct (Re.match_here "") eqn:Hm; done.
  - destruct (Re.match_here (String a url)) as [h'|] eqn:Hm.
    + intros [= ->].
      apply match_here_Some in Hm as (scheme & r & -> & Hs & <- & Hne).
      destruct (host_span_split r) as (rest & Hr & Hrest).
      exists "", scheme, rest. cbn [String.append]. rewrite <- Hr.
      split; [done|]. split; [done|]. split; [done|]. split; [|done].
      apply host_span_idem.
    + intros Hs. destruct (IH Hs) as (before & scheme & rest & -> & ?).
      by exists (String a before), scheme, rest.
Qed.

(** [re.search] finds nothing only if the pattern matches nowhere. *)
Lemma search_None url : Re.search url = None → ¬ has_match url.
Proof.
  intros Hnone (before & scheme & host & rest & -> & Hs & Hne & Hspan).
  induction before as [|a before IH]; rewrite search_unfold in Hnone.
  - change ("" +:+ scheme +:+ "://" +:+ host +:+ rest)
      with (scheme +:+ "://" +:+ (host +:+ rest)) in Hnone.
    rewrite match_here_scheme in Hnone by done.
    rewrite decide_False in Hnone by by apply host_span_app_nonempty.
    done.
  - destruct (Re.match_here _); [done|]. by apply IH.
Qed.



(** * Further properties of the module *)

(** ** What a call does to the breaker *)

Lemma event_loop_state_cases net order g ts :
  Forall regular ts →
  (BingSearch.event_loop net order (g, ts)).1 = g
  ∨ ∃ i d, i ∈ order ∧ i < length ts ∧ trip_of (net i) = Some d
           ∧ (BingSearch.event_loop net order (g, ts)).1
             = BingSearchAPI.mark_unavailable d.
Proof.
  unfold BingSearch.event_loop.
  revert g ts. induction order as [|i order IH]; intros g ts Hreg; [by left|].
  cbn [foldl].
  pose proof (deliver_regular net g ts i Hreg) as Hreg1.
  pose proof (deliver_eq net g ts i Hreg) as Hd.
  destruct (BingSearch.deliver net (g, ts) i) as [g1 ts1]. cbn [snd] in Hreg1.
  assert (length ts1 = length ts ∧
          (g1 = g ∨ ∃ d, i < length ts ∧ trip_of (net i) = Some d
                         ∧ g1 = BingSearchAPI.mark_unavailable d)) as [Hlen Hg1].
  { destruct (ts !! i) as [[hits|req resume]|] eqn:Hi; simplify_eq; [by auto| |by auto].
    rewrite length_insert. split; [done|].
    unfold after_reply. destruct (trip_of (net i)) as [d|]; [|by left].
    right. exists d. split; [by eapply lookup_lt_Some|done]. }
  destruct (IH g1 ts1 Hreg1) as [Hsame|(j & d & Hj & Hlt & Htrip & Hfin)].
  - rewrite Hsame. destruct Hg1 as [->|(d & Hlt & Htrip & ->)]; [by left|].
    right. exists i, d. repeat split; [by left|done..].
  - right. exists j, d. rewrite Hlen in Hlt. repeat split; [by right|done..].
Qed.

Lemma execute_final g cfg params net order o :
  BingSearch.execute g cfg params net order = Some o →
  final o = g
  ∨ (BingSearchAPI._api_unavailable g = false
     ∧ final o = (BingSearch.event_loop net order (g, started_tasks g cfg params)).1).
Proof.
  unfold BingSearch.execute.
  destruct (BingSearchAPI._api_unavailable g); [intros [= <-]; by left|].
  case_decide; [intros [= <-]; by left|].
  fold (clamp (BingSearch.num_results params)).
  fold (started_tasks g cfg params).
  destruct (BingSearch.event_loop net order (g, started_tasks g cfg params))
    as [g' tasks'].
  destruct (BingSearch.gather tasks') as [all_results|]; [|done].
  cbn [mbind option_bind]. intros [= <-]. by right.
Qed.

(** X1: a call changes the class variables only by tripping.  Whatever
    the order of arrival, the class variables a call leaves are those it
    found, or the breaker was closed and they are the ones the 401 reply to
    one of its queries gives; they are those it found when no reply is a
    401 whose text can be read, and when the breaker was open. *)
Theorem breaker_changes_only_by_a_401
    (g : BingSearchAPI.cls) (cfg : gmap string string)
    (params : BingSearch.BingSearchParams) (net : nat → upstream) (order : list nat)
    (o : outcome) :
  BingSearch.execute g cfg params net order = Some o →
  (final o = g
   ∨ (BingSearchAPI._api_unavailable g = false
      ∧ ∃ i d, i ∈ order ∧ i < length (BingSearch.query params)
               ∧ trip_of (net i) = Some d
               ∧ final o = BingSearchAPI.mark_unavailable d))
  ∧ ((∀ i, i < length (BingSearch.query params) → trip_of (net i) = None) →
     final o = g)
  ∧ (BingSearchAPI._api_unavailable g = true → final o = g).
Proof.
  intros Hex.
  assert (final o = g
          ∨ (BingSearchAPI._api_unavailable g = false
             ∧ ∃ i d, i ∈ order ∧ i < length (BingSearch.query params)
                      ∧ trip_of (net i) = Some d
                      ∧ final o = BingSearchAPI.mark_unavailable d)) as Hcases.
  { destruct (execute_final _ _ _ _ _ _ Hex) as [?|[Hg ->]]; [by left|].
    destruct (event_loop_state_cases net order g (started_tasks g cfg params)
                (started_tasks_regular g cfg params))
      as [->|(i & d & Hi & Hlt & Htrip & ->)]; [by left|].
    right. split; [done|]. exists i, d. unfold started_tasks in Hlt.
    rewrite length_map in Hlt. done. }
  split; [done|]. split.
  - intros Hnone. destruct Hcases as [?|(_ & i & d & _ & Hlt & Htrip & _)]; [done|].
    rewrite Hnone in Htrip by done. done.
  - intros Hopen. destruct Hcases as [?|(Hclosed & _)]; [done|]. congruence.
Qed.

Lemma breaker_changes_only_by_a_401_witness :
  (final
     {| final := BingSearchAPI.mark_unavailable "denied";
        sent := [request_of sample_cfg (BingSearch.with_defaults ["cats"; "dogs"]) "cats";
                 request_of sample_cfg (BingSearch.with_defaults ["cats"; "dogs"]) "dogs"];
        returned :=
          batch_return ["cats"; "dogs"]
            [unit_result BingSearchAPI.initial sample_cfg
               (BingSearch.with_defaults ["cats"; "dogs"]) (sample_net_denied 0) "cats";
             unit_result BingSearchAPI.initial sample_cfg
               (BingSearch.with_defaults ["cats"; "dogs"]) (sample_net_denied 1) "dogs"] |}
   = BingSearchAPI.initial
   ∨ (BingSearchAPI._api_unavailable BingSearchAPI.initial = false
      ∧ ∃ i d, i ∈ [0; 1]
               ∧ i < length (BingSearch.query (BingSearch.with_defaults ["cats"; "dogs"]))
               ∧ trip_of (sample_net_denied i) = Some d
               ∧ final
                   {| final := BingSearchAPI.mark_unavailable "denied";
                      sent := [request_of sample_cfg
                                 (BingSearch.with_defaults ["cats"; "dogs"]) "cats";
                               request_of sample_cfg
                                 (BingSearch.with_defaults ["cats"; "dogs"]) "dogs"];
                      returned :=
                        batch_return ["cats"; "dogs"]
                          [unit_result BingSearchAPI.initial sample_cfg
                             (BingSearch.with_defaults ["cats"; "dogs"])
                             (sample_net_denied 0) "cats";
                           unit_result BingSearchAPI.initial sample_cfg
                             (BingSearch.with_defaults ["cats"; "dogs"])
                             (sample_net_denied 1) "dogs"] |}
                 = BingSearchAPI.mark_unavailable d)).
Proof.
  apply (breaker_changes_only_by_a_401 BingSearchAPI.initial sample_cfg
           (BingSearch.with_defaults ["cats"; "dogs"]) sample_net_denied [0; 1]).
  by vm_compute.
Defined.

(** X2: nothing closes the breaker again.  Calls made one after the other
    on an open breaker all return, whatever their parameters and whatever
    the upstream would reply; each sends nothing and returns the error that
    quotes the recorded reason, and the class variables end as they
    started. *)
Theorem open_breaker_blocks_every_later_call
    (g : BingSearchAPI.cls) (calls : list call) :
  BingSearchAPI._api_unavailable g = true →
  run_calls g calls
  = Some (g, (λ _, {| final := g; sent := [];
                      returned :=
                        result_of_error
                          ("搜索服务不可用: "
                           +:+ BingSearchAPI._api_unavailable_reason g) |}) <$> calls).
Proof.
  intros Hg. induction calls as [|c calls IH]; [done|].
  cbn [run_calls]. rewrite execute_unavailable by done.
  cbn [mbind option_bind final]. by rewrite IH.
Qed.

Lemma open_breaker_blocks_every_later_call_witness :
  run_calls (BingSearchAPI.mark_unavailable "denied")
    [{| call_cfg := sample_cfg; call_params := BingSearch.with_defaults ["cats"];
        call_net := λ _, reply_ok [sample_item]; call_order := [0] |};
     {| call_cfg := ∅; call_params := BingSearch.with_defaults [];
        call_net := λ _, TransportError; call_order := [] |}]
  = Some (BingSearchAPI.mark_unavailable "denied",
          (λ _, {| final := BingSearchAPI.mark_unavailable "denied"; sent := [];
                   returned :=
                     result_of_error
                       ("搜索服务不可用: "
                        +:+ BingSearchAPI._api_unavailable_reason
                              (BingSearchAPI.mark_unavailable "denied")) |})
            <$> [{| call_cfg := sample_cfg;
                    call_params := BingSearch.with_defaults ["cats"];
                    call_net := λ _, reply_ok [sample_item]; call_order := [0] |};
                 {| call_cfg := ∅; call_params := BingSearch.with_defaults [];
                    call_net := λ _, TransportError; call_order := [] |}]).
Proof.
  apply (open_breaker_blocks_every_later_call (BingSearchAPI.mark_unavailable "denied")).
  reflexivity.
Defined.

(** ** The requests of a call *)

Lemma issued_started_tasks g cfg params :
  BingSearchAPI._api_unavailable g = false →
  config_get cfg "bing.search_api_key" "" ≠ "" →
  BingSearch.issued (started_tasks g cfg params)
  = request_of cfg params <$> BingSearch.query params.
Proof.
  intros Hg Hkey. unfold BingSearch.issued, started_tasks.
  induction (BingSearch.query params) as [|q qs IH]; [done|].
  cbn [map fmap list_fmap omap list_omap].
  destruct (perform_search_closed g cfg q (clamp (BingSearch.num_results params))
              (BingSearch.language params) (BingSearch.region params)
              (BingSearch.safe_search params) (BingSearch.time_period params) Hg Hkey)
    as (req & resume & Hp).
  rewrite Hp. apply perform_search_waiting in Hp as (_ & _ & -> & _).
  f_equal. apply IH.
Qed.

(** X3: one GET per query, in the order of the queries, and none twice.
    A call with the breaker closed and a credential configured sends, for
    the query at position [i], one GET to the configured endpoint followed
    by [/search], with the credential in the header and that query as
    [q]; a call without a credential sends nothing. *)
Theorem one_request_per_query
    (g : BingSearchAPI.cls) (cfg : gmap string string)
    (params : BingSearch.BingSearchParams) (net : nat → upstream) (order : list nat)
    (o : outcome) :
  BingSearchAPI._api_unavailable g = false →
  BingSearch.query params ≠ [] →
  BingSearch.execute g cfg params net order = Some o →
  (config_get cfg "bing.search_api_key" "" ≠ "" →
   sent o = request_of cfg params <$> BingSearch.query params
   ∧ length (sent o) = length (BingSearch.query params)
   ∧ ∀ i q, BingSearch.query params !! i = Some q →
            ∃ req, sent o !! i = Some req
                   ∧ req_params req !! "q" = Some (PyStr q)
                   ∧ req_headers req !! "Ocp-Apim-Subscription-Key"
                     = Some (config_get cfg "bing.search_api_key" "")
                   ∧ req_url req
                     = config_get cfg "bing.search_endpoint"
                         "https://api.bing.microsoft.com/v7.0" +:+ "/search")
  ∧ (config_get cfg "bing.search_api_key" "" = "" → sent o = []).
Proof.
  intros Hg Hq Hex.
  assert (sent o = BingSearch.issued (started_tasks g cfg params)) as Hsent.
  { revert Hex. unfold BingSearch.execute. rewrite Hg, decide_False by done.
    fold (clamp (BingSearch.num_results params)).
    fold (started_tasks g cfg params).
    destruct (BingSearch.event_loop net order (g, started_tasks g cfg params))
      as [g' tasks'].
    destruct (BingSearch.gather tasks') as [all_results|]; [|done].
    cbn [mbind option_bind]. by intros [= <-]. }
  split.
  - intros Hkey. rewrite Hsent, issued_started_tasks by done.
    split; [done|]. split; [by rewrite length_fmap|].
    intros i q Hi. eexists. rewrite list_lookup_fmap, Hi.
    split; [reflexivity|]. cbn [request_of req_params req_headers req_url].
    unfold four_params. by rewrite !lookup_insert_eq.
  - intros Hkey. rewrite Hsent, started_tasks_no_key by done.
    clear. induction (BingSearch.query params) as [|q qs IH]; [done|].
    cbn [fmap list_fmap BingSearch.issued omap list_omap]. apply IH.
Qed.

Lemma one_request_per_query_witness :
  sent {| final := BingSearchAPI.initial;
          sent := request_of sample_cfg (BingSearch.with_defaults ["cats"; "cats"])
                    <$> ["cats"; "cats"];
          returned :=
            batch_return ["cats"; "cats"]
              [unit_result BingSearchAPI.initial sample_cfg
                 (BingSearch.with_defaults ["cats"; "cats"]) TransportError "cats";
               unit_result BingSearchAPI.initial sample_cfg
                 (BingSearch.with_defaults ["cats"; "cats"]) TransportError "cats"] |}
  = request_of sample_cfg (BingSearch.with_defaults ["cats"; "cats"])
      <$> BingSearch.query (BingSearch.with_defaults ["cats"; "cats"]).
Proof.
  apply (one_request_per_query BingSearchAPI.initial sample_cfg
           (BingSearch.with_defaults ["cats"; "cats"]) (λ _, TransportError) [1; 0]).
  - reflexivity.
  - discriminate.
  - by vm_compute.
  - vm_compute. discriminate.
Defined.

(** X4: a call does not return before every reply is in.  With the
    breaker closed, a credential configured and at least one query, the
    call has a value exactly when the reply to each of its queries has
    come in; neither a first failure nor a first success ends it. *)
Theorem no_return_before_all_replies
    (g : BingSearchAPI.cls) (cfg : gmap string string)
    (params : BingSearch.BingSearchParams) (net : nat → upstream) (order : list nat) :
  BingSearchAPI._api_unavailable g = false →
  config_get cfg "bing.search_api_key" "" ≠ "" →
  BingSearch.query params ≠ [] →
  is_Some (BingSearch.execute g cfg params net order)
  ↔ ∀ i, i < length (BingSearch.query params) → i ∈ order.
Proof.
  intros Hg Hkey Hq. split.
  - intros [o Hex] i Hi.
    destruct (decide (i ∈ order)) as [|Hout]; [done|]. exfalso.
    revert Hex. unfold BingSearch.execute. rewrite Hg, decide_False by done.
    fold (clamp (BingSearch.num_results params)).
    fold (started_tasks g cfg params).
    pose proof (event_loop_lookup net order g (started_tasks g cfg params) i
                  (started_tasks_regular g cfg params)) as Hlook.
    destruct (started_tasks_closed g cfg params Hg Hkey i Hi)
      as (req & resume & Hti).
    rewrite Hti in Hlook. cbn [fmap option_fmap option_map] in Hlook.
    rewrite decide_False in Hlook by done.
    destruct (BingSearch.event_loop net order (g, started_tasks g cfg params))
      as [g' tasks'].
    cbn [snd] in Hlook.
    destruct (BingSearch.gather tasks') as [all_results|] eqn:Hgather; [|done].
    unfold BingSearch.gather in Hgather. apply mapM_Some in Hgather.
    destruct (Forall2_lookup_l _ _ _ _ _ Hgather Hlook) as (hits & _ & Hres).
    done.
  - intros Hall. rewrite execute_dispatched by done. by eexists.
Qed.

Lemma no_return_before_all_replies_witness :
  is_Some (BingSearch.execute BingSearchAPI.initial sample_cfg
             (BingSearch.with_defaults ["cats"; "dogs"]) sample_net_denied [1])
  ↔ ∀ i, i < length (BingSearch.query (BingSearch.with_defaults ["cats"; "dogs"])) →
         i ∈ [1].
Proof.
  apply (no_return_before_all_replies BingSearchAPI.initial sample_cfg
           (BingSearch.with_defaults ["cats"; "dogs"]) sample_net_denied [1]).
  - reflexivity.
  - vm_compute. discriminate.
  - discriminate.
Defined.

(** ** The query parameters of the client *)

(** X5: the query parameters of the GET that [_search] sends.  A key of
    [search_kwargs] bound to [None] is not sent, not even [q] or [count];
    a key of [search_kwargs] bound to anything else is sent with that
    value, in place of the query or the count if it is [q] or [count];
    apart from these the GET carries the query as [q], the limit (or the
    [k] of the instance when the limit is absent or 0) as [count], and
    nothing else. *)
Theorem search_kwargs_override_and_none_is_dropped
    (g : BingSearchAPI.cls) (self : BingSearchAPI.t) (q : string) (limit : option Z)
    (req : request) (resume : BingSearchAPI.cls → upstream → BingSearchAPI.cls * list raw_hit)
    (key : string) :
  BingSearchAPI._search g self q limit = BingSearchAPI.Awaiting req resume →
  req_params req !! key
  = match BingSearchAPI.search_kwargs self !! key with
    | Some PyNone => None
    | Some v => Some v
    | None =>
        if decide (key = "q") then Some (PyStr q)
        else if decide (key = "count")
             then Some (PyInt (py_or limit (BingSearchAPI.k self)))
             else None
    end.
Proof.
  intros Hs. apply search_request in Hs as (_ & _ & ->). cbn [req_params].
  rewrite map_lookup_filter.
  destruct (BingSearchAPI.search_kwargs self !! key) as [v|] eqn:Hkw.
  - erewrite lookup_union_Some_l by done.
    cbn [mbind option_bind]. destruct v; case_guard as Hv; cbn in Hv; done.
  - rewrite lookup_union_r by done. rewrite !lookup_insert, lookup_empty.
    destruct (decide (key = "q")) as [->|Hq].
    + rewrite decide_False by done. rewrite decide_True by done.
      cbn [mbind option_bind]. case_guard as Hv; cbn in Hv; done.
    + destruct (decide (key = "count")) as [->|Hc].
      * rewrite decide_True by done. cbn [mbind option_bind].
        case_guard as Hv; cbn in Hv; done.
      * by rewrite !decide_False by done.
Qed.

Lemma search_kwargs_override_and_none_is_dropped_witness :
  req_params
    {| req_url := "https://api.bing.microsoft.com/v7.0/search";
       req_headers :=
         <["Ocp-Apim-Subscription-Key" := "sample-key"]>
           (<["Accept" := "application/json"]> ∅);
       req_params :=
         <["count" := PyInt 3]> (<["setLang" := PyStr "en"]> ∅) |} !! "q"
  = match BingSearchAPI.search_kwargs
            (BingSearchAPI.__init__ sample_cfg 10
               (Some (<["q" := PyNone]> (<["setLang" := PyStr "en"]> ∅))))
          !! "q" with
    | Some PyNone => None
    | Some v => Some v
    | None =>
        if decide ("q" = "q") then Some (PyStr "cats")
        else if decide ("q" = "count")
             then Some (PyInt (py_or (Some 3%Z)
                                 (BingSearchAPI.k
                                    (BingSearchAPI.__init__ sample_cfg 10
                                       (Some (<["q" := PyNone]>
                                                (<["setLang" := PyStr "en"]> ∅)))))))
             else None
    end.
Proof.
  pose (self := BingSearchAPI.__init__ sample_cfg 10
                  (Some (<["q" := PyNone]> (<["setLang" := PyStr "en"]> ∅)))).
  destruct (BingSearchAPI._search BingSearchAPI.initial self "cats" (Some 3%Z))
    as [hits|e|req resume] eqn:Hs; [discriminate Hs|discriminate Hs|].
  assert (req = {| req_url := "https://api.bing.microsoft.com/v7.0/search";
                   req_headers :=
                     <["Ocp-Apim-Subscription-Key" := "sample-key"]>
                       (<["Accept" := "application/json"]> ∅);
                   req_params :=
                     <["count" := PyInt 3]> (<["setLang" := PyStr "en"]> ∅) |}) as Hreq.
  { apply search_request in Hs as (_ & _ & ->). by vm_compute. }
  rewrite <- Hreq.
  exact (search_kwargs_override_and_none_is_dropped BingSearchAPI.initial self "cats"
           (Some 3%Z) req resume "q" Hs).
Defined.

(** X6: a limit of 0 is no limit.  [results] called with [k=0] is
    [results] called without [k]: the same GET, asking for the [k] of the
    instance, and the same treatment of the reply; likewise for
    [_search]. *)
Theorem zero_limit_falls_back_to_instance_k
    (g : BingSearchAPI.cls) (self : BingSearchAPI.t) (q : string) :
  BingSearchAPI.results g self q (Some 0%Z) = BingSearchAPI.results g self q None
  ∧ BingSearchAPI._search g self q (Some 0%Z) = BingSearchAPI._search g self q None
  ∧ BingSearchAPI._search g self q (Some 0%Z)
    = BingSearchAPI._search g self q (Some (BingSearchAPI.k self)).
Proof.
  assert (py_or (Some 0%Z) (BingSearchAPI.k self) = BingSearchAPI.k self) as H0
    by (unfold py_or; by rewrite decide_True).
  assert (py_or None (BingSearchAPI.k self) = BingSearchAPI.k self) as HN by done.
  unfold BingSearchAPI.results, BingSearchAPI._search.
  by rewrite H0, HN, py_or_same.
Qed.

(** ** What a call returns for a reply *)

Lemma unit_result_listed g cfg params r d wp items q :
  BingSearchAPI._api_unavailable g = false →
  config_get cfg "bing.search_api_key" "" ≠ "" →
  status r = 200%Z → json r = Some d → webPages d = Some wp →
  value wp = Some items →
  unit_result g cfg params (Reply r) q
  = map BingSearch.enrich
      (slice_to (clamp (BingSearch.num_results params))
         (map BingSearchAPI.parse_item items)).
Proof.
  intros Hg Hkey H200 Hjson Hwp Hval.
  unfold unit_result, BingSearch._perform_search, BingSearchAPI.results,
    BingSearchAPI._search.
  rewrite Hg. cbn [BingSearchAPI.subscription_key BingSearchAPI.__init__].
  rewrite decide_False by done.
  rewrite (decide_False (P := status r ≠ 200%Z)) by (intros Hne; by apply Hne).
  rewrite Hjson, Hwp, Hval. cbn [snd BingSearchAPI.k]. by rewrite py_or_same.
Qed.

Lemma unit_result_no_list g cfg params r d q :
  status r = 200%Z → json r = Some d →
  (webPages d = None ∨ ∃ wp, webPages d = Some wp ∧ value wp = None) →
  unit_result g cfg params (Reply r) q = [].
Proof.
  intros H200 Hjson Hshape.
  unfold unit_result, BingSearch._perform_search, BingSearchAPI.results,
    BingSearchAPI._search.
  destruct (BingSearchAPI._api_unavailable g); [done|].
  cbn [BingSearchAPI.subscription_key BingSearchAPI.__init__].
  case_decide; [done|].
  rewrite (decide_False (P := status r ≠ 200%Z)) by (intros Hne; by apply Hne).
  rewrite Hjson. destruct Hshape as [->|(wp & -> & ->)]; done.
Qed.

(** X7: the hits of a query are the first items the upstream listed for
    it, in the order of the upstream.  In a call with the breaker closed, a
    credential configured and a requested count that is not negative, a
    query whose reply is a 200 that lists [items] is paired with the first
    min(count, 10) of them, each made into a hit: an absent [name], [url]
    or [snippet] becomes the empty string, and the domain and the favicon
    are derived from the link. *)
Theorem hits_are_the_first_items_listed
    (g : BingSearchAPI.cls) (cfg : gmap string string)
    (params : BingSearch.BingSearchParams) (net : nat → upstream) (order : list nat)
    (i : nat) (q : string) (r : response) (d : data) (wp : web_pages)
    (items : list item) :
  BingSearchAPI._api_unavailable g = false →
  config_get cfg "bing.search_api_key" "" ≠ "" →
  (0 ≤ BingSearch.num_results params)%Z →
  order ≡ₚ seq 0 (length (BingSearch.query params)) →
  BingSearch.query params !! i = Some q →
  net i = Reply r → status r = 200%Z → json r = Some d →
  webPages d = Some wp → value wp = Some items →
  ∃ o, BingSearch.execute g cfg params net order = Some o
    ∧ output_results (returned o) !! i
      = Some (q, (λ it,
                    {| hit_title := default (Str "") (item_name it);
                       hit_link := default (Str "") (item_url it);
                       hit_snippet := default (Str "") (item_snippet it);
                       domain := BingSearch._extract_domain
                                   (default (Str "") (item_url it));
                       icon_url :=
                         BingSearch._get_favicon_url
                           (BingSearch._extract_domain
                              (default (Str "") (item_url it))) |})
                 <$> take (Z.to_nat (Z.min (BingSearch.num_results params) 10)) items).
Proof.
  intros Hg Hkey Hn Hp Hi Hnet H200 Hjson Hwp Hval.
  assert (BingSearch.query params ≠ []) as Hq by (intros Hnil; by rewrite Hnil in Hi).
  eexists. split.
  { apply execute_dispatched; [done..|]. by apply permutation_covers. }
  cbn [returned]. rewrite batch_return_output, zip_imap, list_lookup_imap, Hi.
  cbn [fmap option_fmap option_map]. do 2 f_equal.
  rewrite Hnet. erewrite unit_result_listed by done.
  unfold slice_to, clamp, BingSearch.MAX_RESULTS.
  assert ((if decide (10 < BingSearch.num_results params)%Z then 10%Z
           else BingSearch.num_results params)
          = Z.min (BingSearch.num_results params) 10) as -> by (case_decide; lia).
  rewrite decide_True by lia.
  change (map BingSearchAPI.parse_item items)
    with (BingSearchAPI.parse_item <$> items).
  rewrite <- fmap_take.
  change (map BingSearch.enrich) with (fmap (M := list) BingSearch.enrich).
  by rewrite <- list_fmap_compose.
Qed.

Lemma hits_are_the_first_items_listed_witness :
  ∃ o, BingSearch.execute BingSearchAPI.initial sample_cfg
         {| BingSearch.query := ["cats"]; BingSearch.num_results := 1;
            BingSearch.language := "zh-CN"; BingSearch.region := "CN";
            BingSearch.safe_search := true; BingSearch.time_period := None |}
         (λ _, reply_ok [sample_item; sample_item]) [0] = Some o
    ∧ output_results (returned o) !! 0
      = Some ("cats",
              (λ it,
                 {| hit_title := default (Str "") (item_name it);
                    hit_link := default (Str "") (item_url it);
                    hit_snippet := default (Str "") (item_snippet it);
                    domain := BingSearch._extract_domain
                                (default (Str "") (item_url it));
                    icon_url :=
                      BingSearch._get_favicon_url
                        (BingSearch._extract_domain
                           (default (Str "") (item_url it))) |})
              <$> take (Z.to_nat (Z.min 1 10)) [sample_item; sample_item]).
Proof.
  apply (hits_are_the_first_items_listed BingSearchAPI.initial sample_cfg
           {| BingSearch.query := ["cats"]; BingSearch.num_results := 1;
              BingSearch.language := "zh-CN"; BingSearch.region := "CN";
              BingSearch.safe_search := true; BingSearch.time_period := None |}
           (λ _, reply_ok [sample_item; sample_item]) [0] 0 "cats"
           {| status := 200; text := None;
              json := Some {| webPages := Some {| value := Some [sample_item; sample_item] |} |} |}
           {| webPages := Some {| value := Some [sample_item; sample_item] |} |}
           {| value := Some [sample_item; sample_item] |}
           [sample_item; sample_item]).
  - reflexivity.
  - vm_compute. discriminate.
  - cbn. lia.
  - reflexivity.
  - reflexivity.
  - reflexivity.
  - reflexivity.
  - reflexivity.
  - reflexivity.
  - reflexivity.
Defined.

(** X8: a 200 whose document has no [webPages], or whose [webPages] has no
    [value], counts as no results.  The query is paired with the empty
    list, the call returns no error, and the class variables are left as
    they were unless another query of the call got a 401. *)
Theorem document_without_list_is_no_results
    (g : BingSearchAPI.cls) (cfg : gmap string string)
    (params : BingSearch.BingSearchParams) (net : nat → upstream) (order : list nat)
    (i : nat) (q : string) (r : response) (d : data) :
  BingSearchAPI._api_unavailable g = false →
  order ≡ₚ seq 0 (length (BingSearch.query params)) →
  BingSearch.query params !! i = Some q →
  net i = Reply r → status r = 200%Z → json r = Some d →
  (webPages d = None ∨ ∃ wp, webPages d = Some wp ∧ value wp = None) →
  ∃ o, BingSearch.execute g cfg params net order = Some o
    ∧ output_results (returned o) !! i = Some (q, [])
    ∧ error (returned o) = None
    ∧ trip_of (net i) = None
    ∧ ((∀ j, j < length (BingSearch.query params) → j ≠ i → trip_of (net j) = None) →
       final o = g).
Proof.
  intros Hg Hp Hi Hnet H200 Hjson Hshape.
  assert (BingSearch.query params ≠ []) as Hq by (intros Hnil; by rewrite Hnil in Hi).
  assert (trip_of (net i) = None) as Htrip.
  { rewrite Hnet. cbn. rewrite decide_False; [done|]. rewrite H200. lia. }
  assert (BingSearch.execute g cfg params net order
          = Some {| final :=
                      (BingSearch.event_loop net order (g, started_tasks g cfg params)).1;
                    sent := BingSearch.issued (started_tasks g cfg params);
                    returned :=
                      batch_return (BingSearch.query params)
                        (imap (λ i q, unit_result g cfg params (net i) q)
                           (BingSearch.query params)) |}) as Hex.
  { apply execute_dispatched; [done..|]. by apply permutation_covers. }
  eexists. split; [exact Hex|].
  cbn [returned final].
  rewrite batch_return_output, batch_return_error, zip_imap, list_lookup_imap, Hi.
  split; [|split; [done|split; [done|]]].
  - cbn [fmap option_fmap option_map]. rewrite Hnet.
    by erewrite unit_result_no_list.
  - intros Hothers.
    destruct (event_loop_state_cases net order g (started_tasks g cfg params)
                (started_tasks_regular g cfg params))
      as [->|(j & d' & _ & Hlt & Htj & _)]; [done|].
    unfold started_tasks in Hlt. rewrite length_map in Hlt.
    destruct (decide (j = i)) as [->|Hne]; [congruence|].
    rewrite Hothers in Htj by done. done.
Qed.

Lemma document_without_list_is_no_results_witness :
  ∃ o, BingSearch.execute BingSearchAPI.initial sample_cfg
         (BingSearch.with_defaults ["cats"])
         (λ _, Reply {| status := 200; text := None;
                        json := Some {| webPages := None |} |}) [0] = Some o
    ∧ output_results (returned o) !! 0 = Some ("cats", [])
    ∧ error (returned o) = None
    ∧ trip_of ((λ _ : nat, Reply {| status := 200; text := None;
                                   json := Some {| webPages := None |} |}) 0) = None
    ∧ ((∀ j, j < length (BingSearch.query (BingSearch.with_defaults ["cats"])) →
             j ≠ 0 →
             trip_of ((λ _ : nat, Reply {| status := 200; text := None;
                                          json := Some {| webPages := None |} |}) j)
             = None) →
       final o = BingSearchAPI.initial).
Proof.
  apply (document_without_list_is_no_results BingSearchAPI.initial sample_cfg
           (BingSearch.with_defaults ["cats"])
           (λ _, Reply {| status := 200; text := None;
                          json := Some {| webPages := None |} |}) [0] 0 "cats"
           {| status := 200; text := None; json := Some {| webPages := None |} |}
           {| webPages := None |}).
  - reflexivity.
  - reflexivity.
  - reflexivity.
  - reflexivity.
  - reflexivity.
  - reflexivity.
  - by left.
Defined.

(** ** What every returned hit satisfies *)

Lemma perform_search_enriched g cfg q n language region safe_search time_period t :
  BingSearch._perform_search g cfg q n language region safe_search time_period = t →
  match t with
  | BingSearch.Done hits => hits = []
  | BingSearch.Waiting _ resume =>
      ∀ g' u, ∃ l, (resume g' u).2 = map BingSearch.enrich l
  end.
Proof.
  intros <-. unfold BingSearch._perform_search.
  destruct (BingSearchAPI.results _ _ _ _) as [hits|e|req resume] eqn:Hr.
  - unfold BingSearchAPI.results, BingSearchAPI._search in Hr.
    destruct (BingSearchAPI._api_unavailable g); [by simplify_eq|].
    case_decide; done.
  - done.
  - intros g' u. exists (resume g' u).2. by destruct (resume g' u).
Qed.

Lemma settled_task_enriched g cfg params net order j hits :
  (BingSearch.event_loop net order (g, started_tasks g cfg params)).2 !! j
  = Some (BingSearch.Done hits) →
  ∃ l, hits = map BingSearch.enrich l.
Proof.
  rewrite event_loop_lookup by apply started_tasks_regular.
  unfold started_tasks. rewrite list_lookup_fmap.
  destruct (BingSearch.query params !! j) as [q|]; [|done].
  cbn [fmap option_fmap option_map].
  pose proof (perform_search_enriched g cfg q (clamp (BingSearch.num_results params))
                (BingSearch.language params) (BingSearch.region params)
                (BingSearch.safe_search params) (BingSearch.time_period params)
                _ eq_refl) as Hen.
  destruct (BingSearch._perform_search _ _ _ _ _ _ _ _) as [hits0|req resume].
  - subst hits0. case_decide; intros [= <-]; by exists [].
  - case_decide; [|done]. cbn [settle]. intros [= <-]. apply Hen.
Qed.

Lemma execute_returned g cfg params net order o :
  BingSearch.execute g cfg params net order = Some o →
  (returned o = unavailable_return g
   ∨ returned o = result_of_content (Text "搜索查询不能为空"))
  ∨ ∃ all_results,
      BingSearch.gather
        (BingSearch.event_loop net order (g, started_tasks g cfg params)).2
      = Some all_results
      ∧ returned o = batch_return (BingSearch.query params) all_results.
Proof.
  unfold BingSearch.execute.
  destruct (BingSearchAPI._api_unavailable g); [intros [= <-]; left; by left|].
  case_decide; [intros [= <-]; left; by right|].
  fold (clamp (BingSearch.num_results params)).
  fold (started_tasks g cfg params).
  destruct (BingSearch.event_loop net order (g, started_tasks g cfg params))
    as [g' tasks'].
  cbn [snd].
  destruct (BingSearch.gather tasks') as [all_results|]; [|done].
  cbn [mbind option_bind]. intros [= <-]. right. by exists all_results.
Qed.

(** X9: the derived keys of a hit always fit its link.  In whatever a
    call returns, for whatever order of arrival, every hit has as domain
    what [_extract_domain] makes of its link and as icon [https://], that
    domain and [/favicon.ico]. *)
Theorem derived_keys_fit_the_link
    (g : BingSearchAPI.cls) (cfg : gmap string string)
    (params : BingSearch.BingSearchParams) (net : nat → upstream) (order : list nat)
    (o : outcome) (q : string) (hits : list hit) (h : hit) :
  BingSearch.execute g cfg params net order = Some o →
  (q, hits) ∈ output_results (returned o) →
  h ∈ hits →
  domain h = BingSearch._extract_domain (hit_link h)
  ∧ icon_url h = "https://" +:+ py_str (domain h) +:+ "/favicon.ico".
Proof.
  intros Hex Hin Hh.
  destruct (execute_returned _ _ _ _ _ _ Hex) as [[Hr|Hr]|(all_results & Hgather & Hr)];
    rewrite Hr in Hin; try by apply elem_of_nil in Hin.
  rewrite batch_return_output in Hin.
  apply list_elem_of_lookup in Hin as [j Hj].
  apply lookup_zip_with_Some in Hj as (q' & hits' & [= <- <-] & _ & Hhits).
  unfold BingSearch.gather in Hgather. apply mapM_Some in Hgather.
  destruct (Forall2_lookup_r _ _ _ _ _ Hgather Hhits) as (t & Ht & Hres).
  destruct t as [hits0|req resume]; [|done]. cbn in Hres. simplify_eq.
  apply settled_task_enriched in Ht as [l ->].
  apply list_elem_of_fmap in Hh as (raw & -> & _). done.
Qed.

Lemma derived_keys_fit_the_link_witness :
  domain (BingSearch.enrich (BingSearchAPI.parse_item sample_item))
  = BingSearch._extract_domain
      (hit_link (BingSearch.enrich (BingSearchAPI.parse_item sample_item)))
  ∧ icon_url (BingSearch.enrich (BingSearchAPI.parse_item sample_item))
    = "https://"
      +:+ py_str (domain (BingSearch.enrich (BingSearchAPI.parse_item sample_item)))
      +:+ "/favicon.ico".
Proof.
  apply (derived_keys_fit_the_link BingSearchAPI.initial sample_cfg
           (BingSearch.with_defaults ["cats"]) (λ _, reply_ok [sample_item]) [0]
           {| final := BingSearchAPI.initial;
              sent := [request_of sample_cfg (BingSearch.with_defaults ["cats"]) "cats"];
              returned :=
                batch_return ["cats"]
                  [[BingSearch.enrich (BingSearchAPI.parse_item sample_item)]] |}
           "cats" [BingSearch.enrich (BingSearchAPI.parse_item sample_item)]).
  - by vm_compute.
  - cbn [returned]. rewrite batch_return_output. cbn. by left.
  - by left.
Defined.

(** ** The texts *)

Lemma string_app_assoc (a b c : string) : (a +:+ b) +:+ c = a +:+ b +:+ c.
Proof. induction a as [|x a IH]; [done|]. cbn. by rewrite IH. Qed.

Lemma string_app_nil_r (a : string) : a +:+ "" = a.
Proof. induction a as [|x a IH]; [done|]. cbn. by rewrite IH. Qed.

Lemma summary_lines_acc i l acc :
  BingSearchAPI.summary_lines i l acc = acc +:+ BingSearchAPI.summary_lines i l "".
Proof.
  revert i acc. induction l as [|h t IH]; intros i acc; cbn [BingSearchAPI.summary_lines].
  - by rewrite string_app_nil_r.
  - rewrite (IH (S i) (acc +:+ _)), (IH (S i) ("" +:+ _)).
    by rewrite string_app_assoc.
Qed.

Lemma summary_no_results l : BingSearchAPI.summary l = "No results found" ↔ l = [].
Proof.
  split; [|by intros ->].
  destruct l as [|h t]; [done|]. unfold BingSearchAPI.summary.
  cbn [BingSearchAPI.summary_lines]. rewrite summary_lines_acc.
  change (pretty 1) with "1". cbn. discriminate.
Qed.

(** X11: [run] answers "No results found" exactly when the search has no
    hit.  With the breaker open it says so without any GET; without a
    credential it raises the error of [_search], which nothing in [run]
    catches; otherwise it sends the GET of [_search] called without a
    limit, leaves the class variables as [_search] does, and its text is
    "No results found" if and only if the list of [_search] is empty, as it
    is for every failure. *)
Theorem run_reports_no_results
    (g : BingSearchAPI.cls) (self : BingSearchAPI.t) (q : string) :
  (BingSearchAPI._api_unavailable g = true →
   BingSearchAPI.run g self q = BingSearchAPI.TextReturned "No results found")
  ∧ (BingSearchAPI._api_unavailable g = false →
     BingSearchAPI.subscription_key self = "" →
     BingSearchAPI.run g self q
     = BingSearchAPI.TextRaised (ValueError "Bing Search API key is required"))
  ∧ (BingSearchAPI._api_unavailable g = false →
     BingSearchAPI.subscription_key self ≠ "" →
     ∃ req resume0 resume,
       BingSearchAPI._search g self q None = BingSearchAPI.Awaiting req resume0
       ∧ BingSearchAPI.run g self q = BingSearchAPI.TextAwaiting req resume
       ∧ ∀ g' u,
           (resume g' u).1 = (resume0 g' u).1
           ∧ (resume g' u).1 = after_reply g' u
           ∧ (resume g' u).2 = BingSearchAPI.summary (resume0 g' u).2
           ∧ ((resume g' u).2 = "No results found" ↔ (resume0 g' u).2 = [])
           ∧ (confined_failure u → (resume g' u).2 = "No results found")).
Proof.
  split; [|split].
  - intros Hg. unfold BingSearchAPI.run, BingSearchAPI._search. by rewrite Hg.
  - intros Hg Hkey. unfold BingSearchAPI.run, BingSearchAPI._search.
    by rewrite Hg, decide_True.
  - intros Hg Hkey.
    destruct (BingSearchAPI._search g self q None) as [hits|e|req resume0] eqn:Hs.
    { unfold BingSearchAPI._search in Hs. rewrite Hg, decide_False in Hs by done. done. }
    { unfold BingSearchAPI._search in Hs. rewrite Hg, decide_False in Hs by done. done. }
    exists req, resume0. eexists. split; [done|].
    split; [unfold BingSearchAPI.run; by rewrite Hs|].
    intros g' u. destruct (search_resume _ _ _ _ _ _ Hs g' u) as (H1 & _ & H3 & _).
    destruct (resume0 g' u) as [g1 l1]. cbn [fst snd] in *.
    split; [done|]. split; [done|]. split; [done|]. split.
    + apply summary_no_results.
    + intros Hu. by rewrite H3.
Qed.

Lemma run_reports_no_results_witness :
  BingSearchAPI.run (BingSearchAPI.mark_unavailable "denied")
    (BingSearchAPI.__init__ sample_cfg 10 None) "cats"
  = BingSearchAPI.TextReturned "No results found".
Proof.
  apply (proj1 (run_reports_no_results (BingSearchAPI.mark_unavailable "denied")
                  (BingSearchAPI.__init__ sample_cfg 10 None) "cats")).
  reflexivity.
Defined.

(** The summary of two hits, the second without a snippet. *)
Example summary_of_two_hits :
  BingSearchAPI.summary
    [{| title := Str "A"; link := Str "https://a.example/x"; snippet := Str "first" |};
     {| title := Str "B"; link := Str "https://b.example/y"; snippet := Str "" |}]
  = "1. A: first" +:+ BingSearchAPI.newline +:+ "2. B: " +:+ BingSearchAPI.newline.
Proof. reflexivity. Qed.

Lemma join_singleton sep (l : list string) :
  l ≠ [] → ¬ 1 < length l → join sep l = default "" (head l).
Proof.
  destruct l as [|x [|y l]]; cbn; [done|done|lia].
Qed.

Lemma join_cons sep x y (l : list string) :
  join sep (x :: y :: l) = x +:+ sep +:+ join sep (y :: l).
Proof. done. Qed.

Lemma join_lookup sep (l : list string) i q :
  l !! i = Some q → ∃ before after, join sep l = before +:+ q +:+ after.
Proof.
  revert i. induction l as [|x l IH]; intros i Hi; [done|].
  destruct i as [|i]; cbn in Hi.
  - simplify_eq. destruct l as [|y l].
    + exists "", "". cbn. by rewrite string_app_nil_r.
    + exists "", (sep +:+ join sep (y :: l)). by rewrite join_cons.
  - destruct l as [|y l]; [done|].
    destruct (IH i Hi) as (before & after & Hj).
    exists (x +:+ sep +:+ before), after.
    rewrite join_cons, Hj. by rewrite !string_app_assoc.
Qed.

(** X12: the message of a call and the remark made afterwards name the
    same queries.  For a call that gets as far as starting its coroutines,
    the content returned is the document whose message ends with the
    queries joined by a comma and a space, after "searched" for one query
    and "searched, respectively" for several, and whose results are the
    machine payload; the remark made from the same queries is [搜索: ]
    followed by the same text; and every query stands in that text. *)
Theorem message_and_remark_name_the_queries
    (g : BingSearchAPI.cls) (cfg : gmap string string)
    (params : BingSearch.BingSearchParams) (net : nat → upstream) (order : list nat)
    (others : gset string) :
  BingSearchAPI._api_unavailable g = false →
  BingSearch.query params ≠ [] →
  order ≡ₚ seq 0 (length (BingSearch.query params)) →
  ∃ o, BingSearch.execute g cfg params net order = Some o
    ∧ content (returned o)
      = Document
          ((if decide (1 < length (BingSearch.query params))
            then "我已从搜索引擎中分别搜索了: " else "我已从搜索引擎中搜索了: ")
           +:+ join ", " (BingSearch.query params))
          (output_results (returned o))
    ∧ BingSearch.get_after_tool_call_friendly_action_and_remark
        (Some {| BingSearch.arg_query := Some (BingSearch.query params);
                 BingSearch.arg_other_keys := others |})
      = inr {| BingSearch.action := "互联网搜索";
               BingSearch.remark := "搜索: " +:+ join ", " (BingSearch.query params) |}
    ∧ ∀ i q, BingSearch.query params !! i = Some q →
             ∃ before after,
               join ", " (BingSearch.query params) = before +:+ q +:+ after.
Proof.
  intros Hg Hq Hp. eexists. split.
  { apply execute_dispatched; [done..|]. by apply permutation_covers. }
  cbn [returned]. split; [|split].
  - unfold batch_return. cbn [set_content content output_results output_results_to_dict].
    f_equal. case_decide; [done|]. by rewrite join_singleton.
  - unfold BingSearch.get_after_tool_call_friendly_action_and_remark.
    cbn [BingSearch.arg_query BingSearch.arg_other_keys mbind option_bind].
    rewrite !bool_decide_eq_false_2 by (cbn; intros ?; by intuition).
    cbn [orb]. case_decide; [done|].
    destruct (BingSearch.query params) as [|x [|y l]] eqn:Hqs; [done|done|].
    cbn in *. lia.
  - intros i q Hi. by eapply join_lookup.
Qed.

Lemma message_and_remark_name_the_queries_witness :
  ∃ o, BingSearch.execute BingSearchAPI.initial sample_cfg
         (BingSearch.with_defaults ["cats"; "dogs"]) (λ _, reply_ok []) [0; 1] = Some o
    ∧ content (returned o)
      = Document
          ((if decide (1 < length (BingSearch.query
                                     (BingSearch.with_defaults ["cats"; "dogs"])))
            then "我已从搜索引擎中分别搜索了: " else "我已从搜索引擎中搜索了: ")
           +:+ join ", " (BingSearch.query (BingSearch.with_defaults ["cats"; "dogs"])))
          (output_results (returned o))
    ∧ BingSearch.get_after_tool_call_friendly_action_and_remark
        (Some {| BingSearch.arg_query :=
                   Some (BingSearch.query (BingSearch.with_defaults ["cats"; "dogs"]));
                 BingSearch.arg_other_keys := ∅ |})
      = inr {| BingSearch.action := "互联网搜索";
               BingSearch.remark :=
                 "搜索: "
                 +:+ join ", " (BingSearch.query
                                  (BingSearch.with_defaults ["cats"; "dogs"])) |}
    ∧ ∀ i q, BingSearch.query (BingSearch.with_defaults ["cats"; "dogs"]) !! i = Some q →
             ∃ before after,
               join ", " (BingSearch.query (BingSearch.with_defaults ["cats"; "dogs"]))
               = before +:+ q +:+ after.
Proof.
  apply (message_and_remark_name_the_queries BingSearchAPI.initial sample_cfg
           (BingSearch.with_defaults ["cats"; "dogs"]) (λ _, reply_ok []) [0; 1] ∅).
  - reflexivity.
  - discriminate.
  - reflexivity.
Defined.

(** The two texts for the queries "cats" and "dogs". *)
Example texts_for_cats_and_dogs :
  join ", " ["cats"; "dogs"] = "cats, dogs"
  ∧ BingSearch.get_after_tool_call_friendly_action_and_remark
      (Some {| BingSearch.arg_query := Some ["cats"]; BingSearch.arg_other_keys := ∅ |})
    = inr {| BingSearch.action := "互联网搜索"; BingSearch.remark := "搜索: cats" |}.
Proof. by vm_compute. Qed.

(** X13: when the remark falls back and when it fails.  The function
    raises, an [IndexError], exactly when [arguments] binds ["query"] to
    the empty list; it returns the remark that only says the search is
    done exactly when there are no arguments or no key ["query"]; in
    every other case it returns the action with a remark that starts with
    [搜索: ]. *)
Theorem remark_fallback_and_failure (arguments : option BingSearch.tool_arguments) :
  ((∃ e, BingSearch.get_after_tool_call_friendly_action_and_remark arguments = inl e)
   ↔ ∃ a, arguments = Some a ∧ BingSearch.arg_query a = Some [])
  ∧ (BingSearch.get_after_tool_call_friendly_action_and_remark arguments
     = inr {| BingSearch.action := "互联网搜索"; BingSearch.remark := "已完成搜索" |}
     ↔ arguments ≫= BingSearch.arg_query = None)
  ∧ (∀ queries, arguments ≫= BingSearch.arg_query = Some queries → queries ≠ [] →
       BingSearch.get_after_tool_call_friendly_action_and_remark arguments
       = inr {| BingSearch.action := "互联网搜索";
                BingSearch.remark := "搜索: " +:+ join ", " queries |}).
Proof.
  assert (∀ queries, arguments ≫= BingSearch.arg_query = Some queries →
            BingSearch.get_after_tool_call_friendly_action_and_remark arguments
            = match queries with
              | [] => inl (BingSearch.IndexError "list index out of range")
              | _ => inr {| BingSearch.action := "互联网搜索";
                            BingSearch.remark := "搜索: " +:+ join ", " queries |}
              end) as Hsome.
  { intros queries Hq. destruct arguments as [a|]; [|done]. cbn in Hq.
    unfold BingSearch.get_after_tool_call_friendly_action_and_remark.
    cbn [mbind option_bind]. rewrite Hq.
    rewrite !bool_decide_eq_false_2 by (cbn; intros ?; by intuition).
    cbn [orb]. destruct queries as [|x [|y l]]; [done|done|].
    rewrite decide_True by (cbn; lia). done. }
  assert (arguments ≫= BingSearch.arg_query = None →
            BingSearch.get_after_tool_call_friendly_action_and_remark arguments
            = inr {| BingSearch.action := "互联网搜索";
                     BingSearch.remark := "已完成搜索" |}) as Hnone.
  { intros Hq. destruct arguments as [a|]; [|done]. cbn in Hq.
    unfold BingSearch.get_after_tool_call_friendly_action_and_remark.
    rewrite (bool_decide_eq_true_2 (BingSearch.arg_query a = None)) by done.
    by rewrite orb_true_r. }
  split; [|split].
  - split.
    + intros [e He]. destruct (arguments ≫= BingSearch.arg_query) as [queries|] eqn:Hq.
      * rewrite (Hsome _ eq_refl) in He. destruct queries; [|done].
        destruct arguments as [a|]; [|done]. by exists a.
      * by rewrite Hnone in He.
    + intros (a & -> & Hq). rewrite (Hsome []) by done. by eexists.
  - split; [|done].
    intros Hr. destruct (arguments ≫= BingSearch.arg_query) as [queries|] eqn:Hq; [|done].
    rewrite (Hsome _ eq_refl) in Hr. destruct queries; [done|].
    exfalso. injection Hr as Hr.
    change ("搜索: " +:+ ?x) with x in Hr. discriminate Hr.
  - intros queries Hq Hne. rewrite (Hsome _ Hq). by destruct queries.
Qed.

Lemma remark_fallback_and_failure_witness :
  BingSearch.get_after_tool_call_friendly_action_and_remark
    (Some {| BingSearch.arg_query := Some ["cats"; "dogs"];
             BingSearch.arg_other_keys := {["num_results"]} |})
  = inr {| BingSearch.action := "互联网搜索";
           BingSearch.remark := "搜索: " +:+ join ", " ["cats"; "dogs"] |}.
Proof.
  apply (proj2 (proj2 (remark_fallback_and_failure
                         (Some {| BingSearch.arg_query := Some ["cats"; "dogs"];
                                  BingSearch.arg_other_keys := {["num_results"]} |})))).
  - reflexivity.
  - discriminate.
Defined.

(** ** The call that trips *)

Lemma unit_result_not_200 g cfg params r q :
  status r ≠ 200%Z → unit_result g cfg params (Reply r) q = [].
Proof.
  intros H200.
  unfold unit_result, BingSearch._perform_search, BingSearchAPI.results,
    BingSearchAPI._search.
  destruct (BingSearchAPI._api_unavailable g); [done|].
  cbn [BingSearchAPI.subscription_key BingSearchAPI.__init__].
  case_decide; [done|].
  rewrite (decide_True (P := status r ≠ 200%Z)) by done.
  destruct (text r); [case_decide|]; done.
Qed.

(** X14: the call in which the breaker trips still succeeds.  In a call
    with the breaker closed and a credential configured, a query answered
    with a 401 is paired with the empty list, every other query is paired
    with what it yields on its own, and the value returned carries no
    error; the breaker is open when the call returns, so it is the next
    call that gets the error of the unavailable service. *)
Theorem tripping_call_still_succeeds
    (g : BingSearchAPI.cls) (cfg : gmap string string)
    (params : BingSearch.BingSearchParams) (net : nat → upstream) (order : list nat)
    (a : nat) (qa : string) (r : response) (d : string) :
  BingSearchAPI._api_unavailable g = false →
  config_get cfg "bing.search_api_key" "" ≠ "" →
  order ≡ₚ seq 0 (length (BingSearch.query params)) →
  BingSearch.query params !! a = Some qa →
  net a = Reply r → status r = 401%Z → text r = Some d →
  ∃ o, BingSearch.execute g cfg params net order = Some o
    ∧ error (returned o) = None
    ∧ output_results (returned o) !! a = Some (qa, [])
    ∧ (∀ b q, b ≠ a → BingSearch.query params !! b = Some q →
              output_results (returned o) !! b
              = Some (q, unit_result g cfg params (net b) q))
    ∧ BingSearchAPI._api_unavailable (final o) = true
    ∧ ∀ cfg' params' net' order',
        (error ∘ returned) <$> BingSearch.execute (final o) cfg' params' net' order'
        = Some (Some ("搜索服务不可用: "
                      +:+ BingSearchAPI._api_unavailable_reason (final o))).
Proof.
  intros Hg Hkey Hp Ha Hnet Hs Ht.
  assert (BingSearch.query params ≠ []) as Hq by (intros Hnil; by rewrite Hnil in Ha).
  assert (a < length (BingSearch.query params)) as Hlt by (by eapply lookup_lt_Some).
  assert (trip_of (net a) = Some d) as Htrip.
  { rewrite Hnet. cbn. by rewrite decide_True. }
  eexists. split.
  { apply execute_dispatched; [done..|]. by apply permutation_covers. }
  cbn [returned final].
  rewrite batch_return_error, batch_return_output, zip_imap.
  split; [done|]. split; [|split].
  - rewrite list_lookup_imap, Ha. cbn [fmap option_fmap option_map].
    rewrite Hnet, unit_result_not_200; [done|]. rewrite Hs. lia.
  - intros b q _ Hb. by rewrite list_lookup_imap, Hb.
  - rewrite execute_final_state by done.
    assert (d ∈ omap trip_of (net <$> order)) as Hd.
    { apply list_elem_of_omap. exists (net a). split; [|done].
      apply list_elem_of_fmap. exists a. split; [done|].
      by eapply permutation_covers. }
    destruct (last (omap trip_of (net <$> order))) as [d'|] eqn:Hlast.
    2:{ apply last_None in Hlast. rewrite Hlast in Hd. by apply elem_of_nil in Hd. }
    cbn [from_option]. split; [done|]. intros. by rewrite execute_unavailable.
Qed.

Lemma tripping_call_still_succeeds_witness :
  ∃ o, BingSearch.execute BingSearchAPI.initial sample_cfg
         (BingSearch.with_defaults ["cats"; "dogs"]) sample_net_denied [0; 1] = Some o
    ∧ error (returned o) = None
    ∧ output_results (returned o) !! 1 = Some ("dogs", [])
    ∧ (∀ b q, b ≠ 1 →
              BingSearch.query (BingSearch.with_defaults ["cats"; "dogs"]) !! b = Some q →
              output_results (returned o) !! b
              = Some (q, unit_result BingSearchAPI.initial sample_cfg
                           (BingSearch.with_defaults ["cats"; "dogs"])
                           (sample_net_denied b) q))
    ∧ BingSearchAPI._api_unavailable (final o) = true
    ∧ ∀ cfg' params' net' order',
        (error ∘ returned) <$> BingSearch.execute (final o) cfg' params' net' order'
        = Some (Some ("搜索服务不可用: "
                      +:+ BingSearchAPI._api_unavailable_reason (final o))).
Proof.
  apply (tripping_call_still_succeeds BingSearchAPI.initial sample_cfg
           (BingSearch.with_defaults ["cats"; "dogs"]) sample_net_denied [0; 1] 1 "dogs"
           {| status := 401; text := Some "denied"; json := None |} "denied").
  - reflexivity.
  - vm_compute. discriminate.
  - reflexivity.
  - reflexivity.
  - reflexivity.
  - reflexivity.
  - reflexivity.
Defined.

(** X15: the count sent upstream.  Every GET of a call asks for 10 when
    more than 10 results are requested and for the requested count
    otherwise; a count of 0 or below is passed on as it is. *)
Theorem count_sent_is_the_clamped_count
    (g : BingSearchAPI.cls) (cfg : gmap string string)
    (params : BingSearch.BingSearchParams) (net : nat → upstream) (order : list nat)
    (o : outcome) (req : request) :
  BingSearch.execute g cfg params net order = Some o →
  req ∈ sent o →
  req_params req !! "count" = Some (PyInt (Z.min (BingSearch.num_results params) 10))
  ∧ req_params req !! "mkt"
    = Some (PyStr (BingSearch.language params +:+ "-" +:+ BingSearch.region params))
  ∧ req_params req !! "setLang" = Some (PyStr (BingSearch.language params)).
Proof.
  intros Hex Hreq.
  assert (sent o = [] ∨ sent o = BingSearch.issued (started_tasks g cfg params)) as Hsent.
  { revert Hex. unfold BingSearch.execute.
    destruct (BingSearchAPI._api_unavailable g); [intros [= <-]; by left|].
    case_decide; [intros [= <-]; by left|].
    fold (clamp (BingSearch.num_results params)).
    fold (started_tasks g cfg params).
    destruct (BingSearch.event_loop net order (g, started_tasks g cfg params))
      as [g' tasks'].
    destruct (BingSearch.gather tasks') as [all_results|]; [|done].
    cbn [mbind option_bind]. intros [= <-]. by right. }
  destruct Hsent as [Hsent|Hsent]; rewrite Hsent in Hreq;
    [by apply elem_of_nil in Hreq|].
  unfold BingSearch.issued, started_tasks in Hreq.
  apply list_elem_of_omap in Hreq as (t & Ht & Hreq).
  apply list_elem_of_fmap in Ht as (q & -> & _).
  destruct (BingSearch._perform_search _ _ _ _ _ _ _ _) as [hits|req0 resume] eqn:Hps;
    [done|].
  apply perform_search_waiting in Hps as (_ & _ & -> & _). simplify_eq.
  cbn [req_params]. unfold four_params.
  assert (clamp (BingSearch.num_results params)
          = Z.min (BingSearch.num_results params) 10) as ->.
  { unfold clamp, BingSearch.MAX_RESULTS. case_decide; lia. }
  repeat split; by rewrite ?lookup_insert_ne, ?lookup_insert_eq by done.
Qed.

Lemma count_sent_is_the_clamped_count_witness :
  req_params
    (request_of sample_cfg
       {| BingSearch.query := ["cats"]; BingSearch.num_results := 50;
          BingSearch.language := "en"; BingSearch.region := "US";
          BingSearch.safe_search := false; BingSearch.time_period := Some "year" |}
       "cats") !! "count"
  = Some (PyInt (Z.min 50 10))
  ∧ req_params
      (request_of sample_cfg
         {| BingSearch.query := ["cats"]; BingSearch.num_results := 50;
            BingSearch.language := "en"; BingSearch.region := "US";
            BingSearch.safe_search := false; BingSearch.time_period := Some "year" |}
         "cats") !! "mkt"
    = Some (PyStr ("en" +:+ "-" +:+ "US"))
  ∧ req_params
      (request_of sample_cfg
         {| BingSearch.query := ["cats"]; BingSearch.num_results := 50;
            BingSearch.language := "en"; BingSearch.region := "US";
            BingSearch.safe_search := false; BingSearch.time_period := Some "year" |}
         "cats") !! "setLang"
    = Some (PyStr "en").
Proof.
  apply (count_sent_is_the_clamped_count BingSearchAPI.initial sample_cfg
           {| BingSearch.query := ["cats"]; BingSearch.num_results := 50;
              BingSearch.language := "en"; BingSearch.region := "US";
              BingSearch.safe_search := false; BingSearch.time_period := Some "year" |}
           (λ _, TransportError) [0]
           {| final := BingSearchAPI.initial;
              sent :=
                [request_of sample_cfg
                   {| BingSearch.query := ["cats"]; BingSearch.num_results := 50;
                      BingSearch.language := "en"; BingSearch.region := "US";
                      BingSearch.safe_search := false;
                      BingSearch.time_period := Some "year" |} "cats"];
              returned := batch_return ["cats"] [[]] |}).
  - by vm_compute.
  - by left.
Defined.

(** ** The domain, once more *)

Lemma host_span_suffix a b :
  Re.host_span (a +:+ b) = a +:+ b → Re.host_span b = b.
Proof.
  induction a as [|x a IH]; [done|]. cbn. case_decide as Hx; [done|].
  intros [= Hrest]. by apply IH.
Qed.

Lemma host_span_no_match h : Re.host_span h = h → Re.search h = None.
Proof.
  intros Hh. destruct (Re.search h) as [h'|] eqn:Hs; [|done]. exfalso.
  apply search_Some in Hs as (before & scheme & rest & -> & _).
  apply host_span_suffix, host_span_suffix in Hh.
  change ("://" +:+ h' +:+ rest) with (String ":" (String "/" ("/" +:+ h' +:+ rest))) in Hh.
  cbn in Hh.
  destruct (decide (":"%char = Re.slash)) as [Heq|_]; [discriminate Heq|].
  destruct (decide ("/"%char = Re.slash)) as [_|Hne]; [discriminate Hh|].
  by destruct Hne.
Qed.

(** X16: a domain is a fixed point of [_extract_domain].  Extracting the
    domain of a domain gives the same domain, for every link; and a domain
    that differs from its link holds no slash, so the pattern matches
    nowhere in it. *)
Theorem extract_domain_is_idempotent (url : pyobj) :
  BingSearch._extract_domain (BingSearch._extract_domain url)
  = BingSearch._extract_domain url
  ∧ ∀ s h, url = Str s → BingSearch._extract_domain url = Str h → h ≠ s →
           Re.host_span h = h ∧ h ≠ "" ∧ ¬ has_match h.
Proof.
  destruct url as [s|shown]; [|split; [done|by intros]].
  destruct (Re.search s) as [h|] eqn:Hs.
  - assert (BingSearch._extract_domain (Str s) = Str h) as He
      by (unfold BingSearch._extract_domain; by rewrite Hs).
    apply search_Some in Hs as (before & scheme & rest & _ & _ & Hne & Hspan & _).
    pose proof (host_span_no_match h Hspan) as Hno.
    split.
    + rewrite He. unfold BingSearch._extract_domain. by rewrite Hno.
    + intros s' h' [= <-] Heq _. rewrite He in Heq. injection Heq as <-.
      split; [done|]. split; [done|]. by apply search_None.
  - assert (BingSearch._extract_domain (Str s) = Str s) as He
      by (unfold BingSearch._extract_domain; by rewrite Hs).
    split; [by rewrite !He|].
    intros s' h' [= <-] Heq Hdiff. rewrite He in Heq. injection Heq as <-. done.
Qed.

Lemma extract_domain_is_idempotent_witness :
  Re.host_span "example.com" = "example.com" ∧ "example.com" ≠ ""
  ∧ ¬ has_match "example.com".
Proof.
  apply (proj2 (extract_domain_is_idempotent (Str "https://example.com/a/b"))
           "https://example.com/a/b" "example.com").
  - reflexivity.
  - reflexivity.
  - discriminate.
Defined.
